(** * ipdetailscache: the lookup engine [IPDetailsCache.GetIPInformation]

    A shallow embedding of [src/ipdetailscache.py] (version v0.2.0).

    Modelling choices, all following the Python code:
    - JSON values (the RIPEstat response and the fields copied out of it)
      are the inductive [json]; JSON numbers are modelled as integers.
    - The two caches are the instance dictionaries [IPAddressesCache]
      (keyed by the exploded address string, a [gmap]) and
      [IPPrefixesCache] (an association list, because the prefix scan
      depends on the dictionary's iteration order, and keyed by a hashable
      Python value [pykey], because a prefix key is whatever
      [obj["data"]["resource"]] was).  The record shapes are the ones the
      code writes; only the prefix record's [Holder] is optional, since the
      code reads it with [.get("Holder", "")].
    - The memo dictionaries [IPAddressObjects] and [IPPrefixObjects] are
      part of the state; a NetWrapper is represented by the key it was
      built from.
    - The IP libraries (ipaddr / IPy), [json.loads] and the textual [str()]
      of a JSON container are library code outside the repository: they
      are Section variables.  The network ([urllib2.urlopen]), the clock
      ([time.time]) and [socket.getfqdn] form the per-call environment
      [env]; the clock is read once per call.
    - [GetIPInformation] runs in a state, error and trace monad: the trace
      records the outbound calls (HTTP fetch, reverse DNS).  Debug output
      is not modelled. *)

From Stdlib Require Import ZArith String Ascii List Bool.
From stdpp Require Import base strings gmap.
Import ListNotations.

Local Open Scope Z_scope.
Local Open Scope string_scope.
Local Set Warnings "-register-all".

(* ------------------------------------------------------------------ *)
(** ** Python values *)

(** A value produced by [json.loads]. *)
Inductive json : Type :=
| JNull
| JBool (b : bool)
| JInt (n : Z)
| JStr (s : string)
| JArr (xs : list json)
| JObj (kvs : list (string * json)).

(** A hashable Python value, usable as a dictionary key. *)
Inductive pykey : Type :=
| KNone
| KBool (b : bool)
| KInt (n : Z)
| KStr (s : string).

Definition key_json (k : pykey) : json :=
  match k with
  | KNone => JNull
  | KBool b => JBool b
  | KInt n => JInt n
  | KStr s => JStr s
  end.

(** [hash(x)]: lists and dicts are unhashable ([TypeError]). *)
Definition json_key (j : json) : option pykey :=
  match j with
  | JNull => Some KNone
  | JBool b => Some (KBool b)
  | JInt n => Some (KInt n)
  | JStr s => Some (KStr s)
  | JArr _ | JObj _ => None
  end.

(** Python [==] on hashable values: [True == 1] and [False == 0]. *)
Definition py_key_eq (a b : pykey) : bool :=
  match a, b with
  | KNone, KNone => true
  | KBool x, KBool y => Bool.eqb x y
  | KBool x, KInt n | KInt n, KBool x => Z.eqb (Z.b2z x) n
  | KInt n, KInt m => Z.eqb n m
  | KStr s, KStr t => String.eqb s t
  | _, _ => false
  end.

(** [v == "s"] for a JSON value and a string literal. *)
Definition py_eq_str (v : json) (s : string) : bool :=
  match v with
  | JStr t => String.eqb t s
  | _ => false
  end.

(** [d[k]] with a string key: [KeyError] or [TypeError] give [None].
    [json.loads] keeps the last of duplicated object keys. *)
Definition py_getitem (v : json) (k : string) : option json :=
  match v with
  | JObj kvs =>
      match find (fun kv => String.eqb (fst kv) k) (rev kvs) with
      | Some (_, x) => Some x
      | None => None
      end
  | _ => None
  end.

(** Chained item access: [None] as soon as one access raises. *)
Definition obind {A B} (o : option A) (f : A -> option B) : option B :=
  match o with
  | Some a => f a
  | None => None
  end.

(** [v[0]]: lists give their head, strings their first character, JSON
    objects (string keys only) a [KeyError], other values a [TypeError]. *)
Definition py_index0 (v : json) : option json :=
  match v with
  | JArr (x :: _) => Some x
  | JStr (String c _) => Some (JStr (String c EmptyString))
  | _ => None
  end.

(** [v != []]. *)
Definition py_ne_nil (v : json) : bool :=
  match v with
  | JArr [] => false
  | _ => true
  end.

(** [v != ""]. *)
Definition py_ne_empty (v : json) : bool :=
  match v with
  | JStr s => negb (String.eqb s "")
  | _ => true
  end.

(** Decimal text of an integer, as [str(n)] prints it. *)
Fixpoint uint_to_string (d : Decimal.uint) : string :=
  match d with
  | Decimal.Nil => ""
  | Decimal.D0 d => String "0" (uint_to_string d)
  | Decimal.D1 d => String "1" (uint_to_string d)
  | Decimal.D2 d => String "2" (uint_to_string d)
  | Decimal.D3 d => String "3" (uint_to_string d)
  | Decimal.D4 d => String "4" (uint_to_string d)
  | Decimal.D5 d => String "5" (uint_to_string d)
  | Decimal.D6 d => String "6" (uint_to_string d)
  | Decimal.D7 d => String "7" (uint_to_string d)
  | Decimal.D8 d => String "8" (uint_to_string d)
  | Decimal.D9 d => String "9" (uint_to_string d)
  end.

Definition z_to_string (n : Z) : string :=
  match Z.to_int n with
  | Decimal.Pos u => uint_to_string u
  | Decimal.Neg u => "-" ++ uint_to_string u
  end.

Fixpoint is_ascii_string (s : string) : bool :=
  match s with
  | EmptyString => true
  | String c r => (Ascii.nat_of_ascii c <? 128)%nat && is_ascii_string r
  end.

Fixpoint all_digits (s : string) : bool :=
  match s with
  | EmptyString => true
  | String c r =>
      ((48 <=? Ascii.nat_of_ascii c)%nat && (Ascii.nat_of_ascii c <=? 57)%nat)
      && all_digits r
  end.

(** [s.isdigit()] on a byte string: non-empty and only digits. *)
Definition isdigit (s : string) : bool :=
  negb (String.eqb s "") && all_digits s.

(* ------------------------------------------------------------------ *)
(** ** Records, events, errors, state *)

(** [IPAddressesCache[ip]] and the [Result] dictionary:
    keys TS, ASN, Holder, Prefix, HostName. *)
Record addr_rec : Type := {
  TS : Z;
  ASN : string;
  Holder : json;
  Prefix : json;
  HostName : string
}.

(** [IPPrefixesCache[prefix]]: keys TS, ASN and, optionally, Holder. *)
Record pref_rec : Type := {
  p_TS : Z;
  p_ASN : string;
  p_Holder : option json
}.

(** Outbound calls. *)
Inductive event : Type :=
| EvFetch (url : string)
| EvDns (host : string).

(** Exceptions [GetIPInformation] can raise. *)
Inductive exn : Type :=
| InvalidAddress        (* IPWrapper(in_IP) *)
| InvalidBlock          (* NetWrapper(IPPrefix) *)
| LookupError           (* urllib2.urlopen(URL).read() *)
| JSONDecodeError       (* json.loads *)
| FieldAccessError      (* obj["status"], obj["data"]["asns"], ... *)
| UnhashableKey.        (* IPPrefix in self.IPPrefixesCache *)

Record state : Type := {
  IPAddressesCache : gmap string addr_rec;
  IPPrefixesCache : list (pykey * pref_rec);
  IPAddressObjects : gset string;
  IPPrefixObjects : list (pykey * pykey);  (* key -> key the NetWrapper was built from *)
  MAX_CACHE : Z
}.

(** The environment of one call. *)
Record env : Type := {
  now : Z;                            (* int(time.time()) *)
  urlopen : string -> option string;  (* body, or None on transport failure *)
  getfqdn : string -> string          (* socket.getfqdn *)
}.

(* ------------------------------------------------------------------ *)
(** ** A state, error and trace monad *)

Definition M (A : Type) : Type := state -> (exn + A) * state * list event.

Definition mret {A} (a : A) : M A := fun s => (inr a, s, []).

Definition mbind {A B} (m : M A) (k : A -> M B) : M B :=
  fun s =>
    match m s with
    | (inl e, s1, ev1) => (inl e, s1, ev1)
    | (inr a, s1, ev1) =>
        match k a s1 with
        | (r, s2, ev2) => (r, s2, app ev1 ev2)
        end
    end.

Definition mraise {A} (e : exn) : M A := fun s => (inl e, s, []).
Definition mget : M state := fun s => (inr s, s, []).
Definition mput (s' : state) : M unit := fun _ => (inr tt, s', []).
Definition memit (ev : event) : M unit := fun s => (inr tt, s, [ev]).

Definition of_option {A} (e : exn) (o : option A) : M A :=
  match o with
  | Some a => mret a
  | None => mraise e
  end.

Notation "'let*' x ':=' m 'in' k" := (mbind m (fun x => k))
  (at level 200, x binder, m at level 100, right associativity).
Notation "m ';;' k" := (mbind m (fun _ => k))
  (at level 100, right associativity).

(* ------------------------------------------------------------------ *)
(** ** Record updates ([Result["X"] = v], [self.X = v]) *)

Definition set_TS (R : addr_rec) (v : Z) : addr_rec :=
  {| TS := v; ASN := ASN R; Holder := Holder R; Prefix := Prefix R;
     HostName := HostName R |}.
Definition set_ASN (R : addr_rec) (v : string) : addr_rec :=
  {| TS := TS R; ASN := v; Holder := Holder R; Prefix := Prefix R;
     HostName := HostName R |}.
Definition set_Holder (R : addr_rec) (v : json) : addr_rec :=
  {| TS := TS R; ASN := ASN R; Holder := v; Prefix := Prefix R;
     HostName := HostName R |}.
Definition set_Prefix (R : addr_rec) (v : json) : addr_rec :=
  {| TS := TS R; ASN := ASN R; Holder := Holder R; Prefix := v;
     HostName := HostName R |}.
Definition set_HostName (R : addr_rec) (v : string) : addr_rec :=
  {| TS := TS R; ASN := ASN R; Holder := Holder R; Prefix := Prefix R;
     HostName := v |}.

Definition set_addr_cache (s : state) (c : gmap string addr_rec) : state :=
  {| IPAddressesCache := c; IPPrefixesCache := IPPrefixesCache s;
     IPAddressObjects := IPAddressObjects s;
     IPPrefixObjects := IPPrefixObjects s; MAX_CACHE := MAX_CACHE s |}.
Definition set_prefix_cache (s : state) (c : list (pykey * pref_rec)) : state :=
  {| IPAddressesCache := IPAddressesCache s; IPPrefixesCache := c;
     IPAddressObjects := IPAddressObjects s;
     IPPrefixObjects := IPPrefixObjects s; MAX_CACHE := MAX_CACHE s |}.
Definition set_addr_objects (s : state) (o : gset string) : state :=
  {| IPAddressesCache := IPAddressesCache s;
     IPPrefixesCache := IPPrefixesCache s; IPAddressObjects := o;
     IPPrefixObjects := IPPrefixObjects s; MAX_CACHE := MAX_CACHE s |}.
Definition set_prefix_objects (s : state) (o : list (pykey * pykey)) : state :=
  {| IPAddressesCache := IPAddressesCache s;
     IPPrefixesCache := IPPrefixesCache s;
     IPAddressObjects := IPAddressObjects s; IPPrefixObjects := o;
     MAX_CACHE := MAX_CACHE s |}.

(** [d[k]] / [k in d] on a dictionary with [pykey] keys. *)
Definition py_dict_get {A} (k : pykey) (d : list (pykey * A)) : option A :=
  match find (fun kv => py_key_eq (fst kv) k) d with
  | Some (_, v) => Some v
  | None => None
  end.

(** [d[k]["TS"] = ...; d[k]["ASN"] = ...; d[k]["Holder"] = ...] on an
    existing key: the stored key object is kept. *)
Fixpoint prefix_update (k : pykey) (r : pref_rec) (d : list (pykey * pref_rec))
  : list (pykey * pref_rec) :=
  match d with
  | [] => []
  | (k', r') :: t =>
      if py_key_eq k' k then (k', r) :: t else (k', r') :: prefix_update k r t
  end.

(** [if not k in d: d[k] = {}] followed by the three field writes. *)
Definition prefix_upsert (k : pykey) (r : pref_rec) (d : list (pykey * pref_rec))
  : list (pykey * pref_rec) :=
  if existsb (fun kv => py_key_eq (fst kv) k) d
  then prefix_update k r d
  else d ++ [(k, r)].

(** The initial [Result] dictionary. *)
Definition Result0 : addr_rec :=
  {| TS := 0; ASN := ""; Holder := JStr ""; Prefix := JStr ""; HostName := "" |}.

Definition ripe_url (IP : string) : string :=
  "https://stat.ripe.net/data/prefix-overview/data.json?resource=" ++ IP.

(* ------------------------------------------------------------------ *)
(** ** A small IPv4 address library, used to run the engine on examples *)

Module ToyNet.

Fixpoint split_on (sep : ascii) (s : string) : list string :=
  match s with
  | EmptyString => [""]
  | String c r =>
      if Ascii.eqb c sep then "" :: split_on sep r
      else match split_on sep r with
           | w :: ws => String c w :: ws
           | [] => [String c ""]
           end
  end.

Fixpoint dec_value (s : string) (acc : Z) : Z :=
  match s with
  | EmptyString => acc
  | String c r => dec_value r (acc * 10 + Z.of_nat (Ascii.nat_of_ascii c) - 48)
  end.

Definition parse_dec (s : string) : option Z :=
  if isdigit s then Some (dec_value s 0) else None.

Definition parse_octets (s : string) : option (list Z) :=
  match split_on "." s with
  | [a; b; c; d] =>
      match parse_dec a, parse_dec b, parse_dec c, parse_dec d with
      | Some a, Some b, Some c, Some d =>
          if forallb (fun x => Z.leb x 255) [a; b; c; d] then Some [a; b; c; d]
          else None
      | _, _, _, _ => None
      end
  | _ => None
  end.

Definition octets_value (os : list Z) : Z :=
  fold_left (fun acc x => acc * 256 + x) os 0.

Fixpoint join_dots (os : list Z) : string :=
  match os with
  | [] => ""
  | [x] => z_to_string x
  | x :: r => z_to_string x ++ "." ++ join_dots r
  end.

(** [IPAddress(s).exploded] *)
Definition exploded (s : string) : option string :=
  option_map join_dots (parse_octets s).

Definition in_block (v base len : Z) : bool :=
  Z.eqb (Z.shiftr v (32 - len)) (Z.shiftr base (32 - len)).

(** IPv4 [not is_private] (10/8, 172.16/12, 192.168/16). *)
Definition globally_routable (s : string) : bool :=
  match parse_octets s with
  | Some os =>
      let v := octets_value os in
      negb (in_block v (octets_value [10; 0; 0; 0]) 8
            || in_block v (octets_value [172; 16; 0; 0]) 12
            || in_block v (octets_value [192; 168; 0; 0]) 16)
  | None => false
  end.

(** [IPNetwork(k)] for a key "a.b.c.d/n". *)
Definition parse_net (k : pykey) : option (Z * Z) :=
  match k with
  | KStr s =>
      match split_on "/" s with
      | [a; n] =>
          match parse_octets a, parse_dec n with
          | Some os, Some n => if Z.leb n 32 then Some (octets_value os, n) else None
          | _, _ => None
          end
      | _ => None
      end
  | _ => None
  end.

Definition net_ok (k : pykey) : bool :=
  match parse_net k with Some _ => true | None => false end.

Definition net_contains (k : pykey) (ip : string) : bool :=
  match parse_net k, parse_octets ip with
  | Some (base, len), Some os => in_block (octets_value os) base len
  | _, _ => false
  end.

Definition container_str (_ : json) : string := "[...]".

End ToyNet.

(* ------------------------------------------------------------------ *)
(** ** The lookup engine *)

Section Engine.

(** [IPWrapper(ip).exploded()]; [None] when the constructor raises. *)
Variable ip_exploded : string -> option string.
(** [IPWrapper(ip).is_globally_routable()], on the exploded address. *)
Variable is_globally_routable : string -> bool.
(** [NetWrapper(prefix)] succeeds. *)
Variable net_parse_ok : pykey -> bool.
(** [NetWrapper(prefix).contains(IPObj)]. *)
Variable net_contains : pykey -> string -> bool.
(** [json.loads]; [None] when it raises. *)
Variable json_loads : string -> option json.
(** [str()] of a list or dict (its repr). *)
Variable container_str : json -> string.

(** [str(v)] in Python 2: a non-ASCII unicode string raises
    [UnicodeEncodeError]. *)
Definition py_str (v : json) : option string :=
  match v with
  | JNull => Some "None"
  | JBool b => Some (if b then "True" else "False")
  | JInt n => Some (z_to_string n)
  | JStr s => if is_ascii_string s then Some s else None
  | JArr _ | JObj _ => Some (container_str v)
  end.

(** [TS >= int(time.time()) - self.MAX_CACHE] *)
Definition fresh (s : state) (e : env) (ts : Z) : bool :=
  Z.leb (now e - MAX_CACHE s) ts.

(** [if not IPPrefix in self.IPPrefixObjects:
       self.IPPrefixObjects[IPPrefix] = NetWrapper(IPPrefix)],
    returning the stored NetWrapper. *)
Definition prefix_object (k : pykey) : M pykey :=
  let* s := mget in
  match py_dict_get k (IPPrefixObjects s) with
  | Some k0 => mret k0
  | None =>
      if net_parse_ok k
      then mput (set_prefix_objects s (IPPrefixObjects s ++ [(k, k)])) ;; mret k
      else mraise InvalidBlock
  end.

(** Lines 173-184: [for IPPrefix in self.IPPrefixesCache: ...], returning
    the entry the loop breaks on. *)
Fixpoint prefix_scan (e : env) (IP : string) (ps : list (pykey * pref_rec))
  : M (option (pykey * pref_rec)) :=
  match ps with
  | [] => mret None
  | (k, r) :: rest =>
      let* s := mget in
      if fresh s e (p_TS r) then
        let* net := prefix_object k in
        if net_contains net IP then mret (Some (k, r))
        else prefix_scan e IP rest
      else prefix_scan e IP rest
  end.

(** Lines 179-182, applied to [Result]. *)
Definition prefix_hit (R : addr_rec) (k : pykey) (r : pref_rec) : addr_rec :=
  set_Prefix
    (set_Holder (set_ASN (set_TS R (p_TS r)) (p_ASN r))
       (match p_Holder r with Some h => h | None => JStr "" end))
    (key_json k).

(** [obj["data"]["asns"][0]] *)
Definition first_asn_entry (obj : json) : option json :=
  obind (obind (py_getitem obj "data") (fun d => py_getitem d "asns")) py_index0.

(** Lines 197-206: the [try] block and its bare [except]. *)
Definition try_asns (obj : json) (R : addr_rec) : addr_rec :=
  match obind (obind (first_asn_entry obj) (fun x => py_getitem x "asn")) py_str with
  | None => set_ASN R "unknown"
  | Some a =>
      let R := set_ASN R a in
      match obind (first_asn_entry obj) (fun x => py_getitem x "holder") with
      | None => set_ASN R "unknown"
      | Some h =>
          let R := set_Holder R h in
          match obind (py_getitem obj "data") (fun d => py_getitem d "resource") with
          | None => set_ASN R "unknown"
          | Some p => set_Prefix R p
          end
      end
  end.

(** Lines 193-210, once [obj] is decoded. *)
Definition apply_response (e : env) (obj : json) (R : addr_rec) : M addr_rec :=
  let* status := of_option FieldAccessError (py_getitem obj "status") in
  if py_eq_str status "ok" then
    let R := set_TS R (now e) in
    let* data := of_option FieldAccessError (py_getitem obj "data") in
    let* asns := of_option FieldAccessError (py_getitem data "asns") in
    if py_ne_nil asns then mret (try_asns obj R)
    else
      let R := set_Holder (set_ASN R "not announced") (JStr "") in
      let* res := of_option FieldAccessError (py_getitem data "resource") in
      mret (set_Prefix R res)
  else mret R.

(** Lines 212-217. *)
Definition enrich_hostname (e : env) (IP : string) (R : addr_rec) : M addr_rec :=
  if isdigit (ASN R) || String.eqb (ASN R) "not announced" then
    memit (EvDns IP) ;;
    let HostName := getfqdn e IP in
    if String.eqb HostName IP || String.eqb HostName ""
    then mret (set_HostName R "unknown")
    else mret (set_HostName R HostName)
  else mret R.

(** Lines 186-217: the remote fetch and the hostname enrichment. *)
Definition remote_lookup (e : env) (IP : string) (R : addr_rec) : M addr_rec :=
  let URL := ripe_url IP in
  memit (EvFetch URL) ;;
  let* body := of_option LookupError (urlopen e URL) in
  let* obj := of_option JSONDecodeError (json_loads body) in
  let* R := apply_response e obj R in
  enrich_hostname e IP R.

(** Lines 219-238: write [Result] back into both caches. *)
Definition store_result (IP : string) (R : addr_rec) : M unit :=
  let* s := mget in
  mput (set_addr_cache s (<[IP := R]> (IPAddressesCache s))) ;;
  if py_ne_empty (Prefix R) then
    let* k := of_option UnhashableKey (json_key (Prefix R)) in
    let* s := mget in
    mput (set_prefix_cache s
            (prefix_upsert k {| p_TS := TS R; p_ASN := ASN R;
                                p_Holder := Some (Holder R) |}
               (IPPrefixesCache s)))
  else mret tt.

(** [Result] after the prefix scan. *)
Definition seed_of (hit : option (pykey * pref_rec)) : addr_rec :=
  match hit with
  | Some (k, r) => prefix_hit Result0 k r
  | None => Result0
  end.

(** Lines 173-240: everything after a missed address-cache probe. *)
Definition lookup_uncached (e : env) (IP : string) : M addr_rec :=
  let* s := mget in
  let* hit := prefix_scan e IP (IPPrefixesCache s) in
  let R := seed_of hit in
  let* R := if String.eqb (ASN R) "" then remote_lookup e IP R else mret R in
  store_result IP R ;;
  mret R.

(** [IPDetailsCache.GetIPInformation(self, in_IP)]. *)
Definition GetIPInformation (e : env) (in_IP : string) : M addr_rec :=
  let* IP := of_option InvalidAddress (ip_exploded in_IP) in
  let* s := mget in
  mput (set_addr_objects s ({[IP]} ∪ IPAddressObjects s)) ;;
  if negb (is_globally_routable IP) then mret (set_ASN Result0 "unknown")
  else
    let* s := mget in
    match IPAddressesCache s !! IP with
    | Some r => if fresh s e (TS r) then mret r else lookup_uncached e IP
    | None => lookup_uncached e IP
    end.

(** Number of HTTP fetches in a trace. *)
Fixpoint count_fetch (ev : list event) : nat :=
  match ev with
  | [] => O
  | EvFetch _ :: t => S (count_fetch t)
  | EvDns _ :: t => count_fetch t
  end.

(** The response decodes and its [status] is ["ok"]. *)
Definition response_status_ok (resp : option string) : bool :=
  match obind (obind resp json_loads) (fun obj => py_getitem obj "status") with
  | Some st => py_eq_str st "ok"
  | None => false
  end.

(** HostName recorded for the name returned by [socket.getfqdn(IP)]. *)
Definition hostname_of (name IP : string) : string :=
  if String.eqb name IP || String.eqb name "" then "unknown" else name.

End Engine.

(* ------------------------------------------------------------------ *)
(** ** Construction, [SaveCache] and [__del__]: the cache files

    The cache files hold the two dictionaries as JSON text.  At this level
    the dictionaries are the JSON values [json.load] returns, so this part
    of the model does not use the typed records of the lookup engine.  The
    file system maps paths to contents, and says which paths can be opened
    for reading and for writing; [open(p, "w")] truncates (or creates) [p].
    The memo dictionaries [IPAddressObjects] and [IPPrefixObjects] start
    empty and are never saved, so they are left out here. *)

Record fsys : Type := {
  files : gmap string string;
  can_read : string -> bool;
  can_write : string -> bool
}.

Definition set_files (fs : fsys) (f : gmap string string) : fsys :=
  {| files := f; can_read := can_read fs; can_write := can_write fs |}.

(** [IOError] from [open], [ValueError] from [json.load]. *)
Inductive io_exn : Type :=
| IOError
| ValueError.

(** The attributes of an [IPDetailsCache] object that construction and
    saving touch. *)
Record cache_object : Type := {
  c_IPAddressesCache : json;
  c_IPPrefixesCache : json;
  IP_ADDRESSES_CACHE_FILE : string;
  IP_PREFIXES_CACHE_FILE : string;
  c_MAX_CACHE : Z;
  Debug : bool
}.

Definition set_c_addr (o : cache_object) (v : json) : cache_object :=
  {| c_IPAddressesCache := v; c_IPPrefixesCache := c_IPPrefixesCache o;
     IP_ADDRESSES_CACHE_FILE := IP_ADDRESSES_CACHE_FILE o;
     IP_PREFIXES_CACHE_FILE := IP_PREFIXES_CACHE_FILE o;
     c_MAX_CACHE := c_MAX_CACHE o; Debug := Debug o |}.
Definition set_c_pref (o : cache_object) (v : json) : cache_object :=
  {| c_IPAddressesCache := c_IPAddressesCache o; c_IPPrefixesCache := v;
     IP_ADDRESSES_CACHE_FILE := IP_ADDRESSES_CACHE_FILE o;
     IP_PREFIXES_CACHE_FILE := IP_PREFIXES_CACHE_FILE o;
     c_MAX_CACHE := c_MAX_CACHE o; Debug := Debug o |}.

Section Files.

(** [json.loads] ([json.load] reads the file and parses it); [None] when
    it raises [ValueError]. *)
Variable json_loads : string -> option json.
(** The text [json.dump] writes. *)
Variable json_dumps : json -> string.

(** [IPDetailsCache._file_not_zero(path)]. *)
Definition _file_not_zero (fs : fsys) (path : string) : bool :=
  match files fs !! path with
  | Some c => Nat.ltb 0 (String.length c)
  | None => false
  end.

(** [json.load(open(path))]. *)
Definition load_json (fs : fsys) (path : string) : io_exn + json :=
  if can_read fs path then
    match files fs !! path with
    | Some c =>
        match json_loads c with
        | Some v => inr v
        | None => inl ValueError
        end
    | None => inl IOError
    end
  else inl IOError.

(** [with open(path, "w") as outfile: ...] writing [contents]. *)
Definition write_file (fs : fsys) (path contents : string) : io_exn + fsys :=
  if can_write fs path then inr (set_files fs (<[path := contents]> (files fs)))
  else inl IOError.

(** [IPDetailsCache.__init__].  When it raises, the object built so far is
    returned with the exception: Python still finalises it. *)
Definition __init__ (fs : fsys) (A P : string) (max : Z) (dbg : bool)
  : (io_exn * cache_object + cache_object) * fsys :=
  let o0 := {| c_IPAddressesCache := JObj []; c_IPPrefixesCache := JObj [];
               IP_ADDRESSES_CACHE_FILE := A; IP_PREFIXES_CACHE_FILE := P;
               c_MAX_CACHE := max; Debug := dbg |} in
  match (if _file_not_zero fs A then load_json fs A else inr (JObj [])) with
  | inl x => (inl (x, o0), fs)
  | inr a =>
      let o1 := if _file_not_zero fs A then set_c_addr o0 a else o0 in
      match (if _file_not_zero fs P then load_json fs P else inr (JObj [])) with
      | inl x => (inl (x, o1), fs)
      | inr p =>
          let o2 := if _file_not_zero fs P then set_c_pref o1 p else o1 in
          match write_file fs A "" with
          | inl x => (inl (x, o2), fs)
          | inr fs1 =>
              match write_file fs1 P "" with
              | inl x => (inl (x, o2), fs1)
              | inr fs2 => (inr o2, fs2)
              end
          end
      end
  end.

(** [IPDetailsCache.SaveCache]. *)
Definition SaveCache (fs : fsys) (o : cache_object) : (io_exn + unit) * fsys :=
  match write_file fs (IP_ADDRESSES_CACHE_FILE o) (json_dumps (c_IPAddressesCache o)) with
  | inl x => (inl x, fs)
  | inr fs1 =>
      match write_file fs1 (IP_PREFIXES_CACHE_FILE o)
              (json_dumps (c_IPPrefixesCache o)) with
      | inl x => (inl x, fs1)
      | inr fs2 => (inr tt, fs2)
      end
  end.

(** [IPDetailsCache.__del__]. *)
Definition __del__ (fs : fsys) (o : cache_object) : (io_exn + unit) * fsys :=
  SaveCache fs o.

End Files.

(* ------------------------------------------------------------------ *)
(** ** Concrete fixtures: canned RIPEstat responses and cache states *)

Module Fixture.

Definition resp_announced : json :=
  JObj [("status", JStr "ok");
        ("data", JObj [("resource", JStr "193.0.0.0/21");
                       ("asns", JArr [JObj [("asn", JInt 3333);
                                            ("holder", JStr "RIPE-NCC-AS")]])])].

Definition resp_empty_asns : json :=
  JObj [("status", JStr "ok");
        ("data", JObj [("resource", JStr "198.51.100.7"); ("asns", JArr [])])].

Definition resp_error : json :=
  JObj [("status", JStr "error"); ("messages", JArr [])].

(** The first ASN entry is there, but [data] has no [resource]. *)
Definition resp_no_resource : json :=
  JObj [("status", JStr "ok");
        ("data", JObj [("asns", JArr [JObj [("asn", JInt 3333);
                                            ("holder", JStr "RIPE-NCC-AS")]])])].

(** [json.loads] on the bodies used below. *)
Definition loads (body : string) : option json :=
  if String.eqb body "announced" then Some resp_announced
  else if String.eqb body "empty" then Some resp_empty_asns
  else if String.eqb body "error" then Some resp_error
  else if String.eqb body "no-resource" then Some resp_no_resource
  else None.

(** A server answering every request with the same body. *)
Definition env_with (t : Z) (body : option string) : env :=
  {| now := t; urlopen := fun _ => body;
     getfqdn := fun ip => if String.eqb ip "193.0.6.139" then "www.ripe.net" else ip |}.

Definition T0 : Z := 1401781240.

Definition empty_state : state :=
  {| IPAddressesCache := ∅; IPPrefixesCache := []; IPAddressObjects := ∅;
     IPPrefixObjects := []; MAX_CACHE := 604800 |}.

Definition prefix_state (k : string) (r : pref_rec) : state :=
  {| IPAddressesCache := ∅; IPPrefixesCache := [(KStr k, r)];
     IPAddressObjects := ∅; IPPrefixObjects := []; MAX_CACHE := 604800 |}.

Definition resolve (e : env) (ip : string) : M addr_rec :=
  GetIPInformation ToyNet.exploded ToyNet.globally_routable ToyNet.net_ok
    ToyNet.net_contains loads ToyNet.container_str e ip.

(** The record the announced response gives for 193.0.6.139. *)
Definition ripe_record : addr_rec :=
  {| TS := T0; ASN := "3333"; Holder := JStr "RIPE-NCC-AS";
     Prefix := JStr "193.0.0.0/21"; HostName := "www.ripe.net" |}.

Definition ripe_prefix (ts : Z) (h : option json) : pref_rec :=
  {| p_TS := ts; p_ASN := "3333"; p_Holder := h |}.

(** 193.0.6.139 cached at [T0]. *)
Definition fresh_state : state :=
  {| IPAddressesCache := {[ "193.0.6.139" := ripe_record ]};
     IPPrefixesCache := []; IPAddressObjects := ∅; IPPrefixObjects := [];
     MAX_CACHE := 604800 |}.

(** Both tiers hold entries fetched at time 0, long expired at [T0]. *)
Definition stale_state : state :=
  {| IPAddressesCache := {[ "193.0.6.139" := set_TS ripe_record 0 ]};
     IPPrefixesCache := [(KStr "193.0.0.0/21", ripe_prefix 0 (Some (JStr "RIPE-NCC-AS")))];
     IPAddressObjects := ∅; IPPrefixObjects := []; MAX_CACHE := 604800 |}.

(** Two calls at [T0]: the service is unreachable, and it answers with
    the announced response. *)
Definition run_fetch_fails := resolve (env_with T0 None) "8.8.8.8" empty_state.
Definition run_announced :=
  resolve (env_with T0 (Some "announced")) "193.0.6.139" empty_state.

Definition result_of (o : (exn + addr_rec) * state * list event) := fst (fst o).
Definition state_of (o : (exn + addr_rec) * state * list event) := snd (fst o).
Definition events_of (o : (exn + addr_rec) * state * list event) := snd o.

End Fixture.

(* ------------------------------------------------------------------ *)
(** ** More fixtures: an unhashable prefix, a malformed cached prefix, and
    a small file system holding the two cache files *)

Module Examples.

(** [data.resource] is a list. *)
Definition resp_list_resource : json :=
  JObj [("status", JStr "ok");
        ("data", JObj [("resource", JArr [JStr "193.0.0.0/21"]);
                       ("asns", JArr [JObj [("asn", JInt 3333);
                                            ("holder", JStr "RIPE-NCC-AS")]])])].

(** [json.loads] on the bodies of [Fixture.loads], on "list-resource", and
    on the text of an empty object. *)
Definition loads (body : string) : option json :=
  if String.eqb body "list-resource" then Some resp_list_resource
  else if String.eqb body "{}" then Some (JObj [])
  else Fixture.loads body.

(** [json.dumps] on the values written below. *)
Definition dumps (v : json) : string :=
  match v with
  | JObj [] => "{}"
  | _ => "announced"
  end.

Definition resolve (e : env) (ip : string) : M addr_rec :=
  GetIPInformation ToyNet.exploded ToyNet.globally_routable ToyNet.net_ok
    ToyNet.net_contains loads ToyNet.container_str e ip.

(** A fresh prefix-cache entry whose key is not a network. *)
Definition bad_prefix_state : state :=
  Fixture.prefix_state "not-a-net" (Fixture.ripe_prefix Fixture.T0 (Some (JStr "X"))).

Definition run_list_resource :=
  resolve (Fixture.env_with Fixture.T0 (Some "list-resource")) "193.0.6.139"
    Fixture.empty_state.
Definition run_bad_prefix :=
  resolve (Fixture.env_with Fixture.T0 (Some "announced")) "193.0.6.139"
    bad_prefix_state.
Definition run_empty :=
  resolve (Fixture.env_with Fixture.T0 (Some "empty")) "198.51.100.7"
    Fixture.empty_state.

Definition addr_file : string := "ip_addr.cache".
Definition pref_file : string := "ip_pref.cache".

(** Both cache files present, readable and writable. *)
Definition disk (a p : string) : fsys :=
  {| files := <[addr_file := a]> (<[pref_file := p]> ∅);
     can_read := fun _ => true; can_write := fun _ => true |}.

(** The same, but the prefix-cache file is read-only. *)
Definition disk_ro_pref (a p : string) : fsys :=
  {| files := <[addr_file := a]> (<[pref_file := p]> ∅);
     can_read := fun _ => true;
     can_write := fun f => negb (String.eqb f pref_file) |}.

Definition init (fs : fsys) := __init__ loads fs addr_file pref_file 604800 false.

Definition obj_of (r : (io_exn * cache_object + cache_object) * fsys) : cache_object :=
  match fst r with inl (_, o) => o | inr o => o end.

(** An object holding the announced response in its address cache. *)
Definition saved_object (a : string) : cache_object :=
  {| c_IPAddressesCache := Fixture.resp_announced; c_IPPrefixesCache := JObj [];
     IP_ADDRESSES_CACHE_FILE := a; IP_PREFIXES_CACHE_FILE := pref_file;
     c_MAX_CACHE := 604800; Debug := false |}.

End Examples.

(* ------------------------------------------------------------------ *)
(** ** Properties of the engine *)

Section Proofs.

Variable ip_exploded : string -> option string.
Variable is_globally_routable : string -> bool.
Variable net_parse_ok : pykey -> bool.
Variable net_contains : pykey -> string -> bool.
Variable json_loads : string -> option json.
Variable container_str : json -> string.

Local Abbreviation resolve :=
  (GetIPInformation ip_exploded is_globally_routable net_parse_ok net_contains
     json_loads container_str).
Local Abbreviation scan := (prefix_scan net_parse_ok net_contains).
Local Abbreviation uncached :=
  (lookup_uncached net_parse_ok net_contains json_loads container_str).
Local Abbreviation remote := (remote_lookup json_loads container_str).
Local Abbreviation status_ok := (response_status_ok json_loads).

(** *** Record bookkeeping *)

Lemma set_prefix_objects_self s : set_prefix_objects s (IPPrefixObjects s) = s.
Proof. by destruct s. Qed.

Lemma set_prefix_objects_twice s a b :
  set_prefix_objects (set_prefix_objects s a) b = set_prefix_objects s b.
Proof. by destruct s. Qed.

Lemma mret_run {A} (a : A) s : mret a s = (inr a, s, []).
Proof. reflexivity. Qed.

(** *** The prefix scan only touches [IPPrefixObjects] *)

Lemma prefix_scan_frame e IP ps :
  forall s s', MAX_CACHE s = MAX_CACHE s' -> IPPrefixObjects s = IPPrefixObjects s' ->
  match scan e IP ps s with
  | (r, t, ev) =>
      t = set_prefix_objects s (IPPrefixObjects t) /\ ev = [] /\
      scan e IP ps s' = (r, set_prefix_objects s' (IPPrefixObjects t), [])
  end.
Proof.
  induction ps as [|[k r] ps IH]; intros s s' Hm Ho; simpl.
  - split; [by rewrite set_prefix_objects_self|]. split; [done|].
    by rewrite Ho, set_prefix_objects_self.
  - unfold mbind, mget; simpl.
    assert (Hf : fresh s e (p_TS r) = fresh s' e (p_TS r))
      by (unfold fresh; by rewrite Hm).
    rewrite <- Hf. destruct (fresh s e (p_TS r)).
    + unfold prefix_object, mbind, mget; simpl. rewrite <- Ho.
      destruct (py_dict_get k (IPPrefixObjects s)) as [k0|] eqn:Hd.
      * unfold mret; simpl.
        destruct (net_contains k0 IP).
        -- simpl. repeat split; rewrite ?set_prefix_objects_self;
             rewrite ?Ho, ?set_prefix_objects_self; auto.
        -- specialize (IH s s' Hm Ho).
           destruct (scan e IP ps s) as [[r' t] ev]. simpl.
           destruct IH as (-> & -> & ->). auto.
      * destruct (net_parse_ok k).
        -- unfold mput, mret; simpl.
           specialize (IH (set_prefix_objects s (IPPrefixObjects s ++ [(k, k)]))
                          (set_prefix_objects s' (IPPrefixObjects s ++ [(k, k)]))).
           destruct s, s'; simpl in *. subst.
           destruct (net_contains k IP).
           ++ simpl. auto.
           ++ specialize (IH eq_refl eq_refl). simpl in IH.
              match goal with
              | |- context [scan e IP ps ?x] =>
                  destruct (scan e IP ps x) as [[r' t] ev]
              end.
              destruct IH as (Ht & -> & ->). simpl.
              rewrite Ht. simpl. auto.
        -- unfold mraise. simpl. repeat split; rewrite ?set_prefix_objects_self;
             rewrite ?Ho, ?set_prefix_objects_self; auto.
    + specialize (IH s s' Hm Ho).
      destruct (scan e IP ps s) as [[r' t] ev].
      destruct IH as (Ht & -> & ->). auto.
Qed.

(** *** The fetch step is stateless *)

Lemma apply_response_pure e obj R s :
  exists r, apply_response container_str e obj R s = (r, s, []).
Proof.
  unfold apply_response, of_option, mbind, mret, mraise.
  repeat (case_match; simplify_eq/=); eauto.
Qed.

Lemma enrich_hostname_run e IP R s :
  enrich_hostname e IP R s =
  if isdigit (ASN R) || String.eqb (ASN R) "not announced"
  then (inr (set_HostName R (hostname_of (getfqdn e IP) IP)), s, [EvDns IP])
  else (inr R, s, []).
Proof.
  unfold enrich_hostname, hostname_of, memit, mbind, mret.
  by repeat (case_match; simplify_eq/=).
Qed.

Lemma remote_lookup_run e IP R s :
  remote e IP R s =
  match urlopen e (ripe_url IP) with
  | None => (inl LookupError, s, [EvFetch (ripe_url IP)])
  | Some body =>
      match json_loads body with
      | None => (inl JSONDecodeError, s, [EvFetch (ripe_url IP)])
      | Some obj =>
          match apply_response container_str e obj R s with
          | (inl x, _, _) => (inl x, s, [EvFetch (ripe_url IP)])
          | (inr R1, _, _) =>
              match enrich_hostname e IP R1 s with
              | (r, _, ev) => (r, s, EvFetch (ripe_url IP) :: ev)
              end
          end
      end
  end.
Proof.
  unfold remote_lookup, memit, of_option, mbind, mret, mraise; simpl.
  destruct (urlopen e (ripe_url IP)) as [body|]; simpl; [|done].
  destruct (json_loads body) as [obj|]; simpl; [|done].
  destruct (apply_response_pure e obj R s) as [r Hr]. rewrite Hr.
  destruct r as [x|R1]; [done|].
  rewrite enrich_hostname_run. by destruct (_ || _).
Qed.

Lemma remote_lookup_state e IP R s :
  snd (fst (remote e IP R s)) = s.
Proof.
  rewrite remote_lookup_run.
  by repeat (case_match; simplify_eq/=).
Qed.

(** *** Writing back *)

Lemma store_result_run IP R s :
  store_result IP R s =
  let s1 := set_addr_cache s (<[IP := R]> (IPAddressesCache s)) in
  if py_ne_empty (Prefix R) then
    match json_key (Prefix R) with
    | None => (inl UnhashableKey, s1, [])
    | Some k =>
        (inr tt,
         set_prefix_cache s1
           (prefix_upsert k {| p_TS := TS R; p_ASN := ASN R;
                               p_Holder := Some (Holder R) |}
              (IPPrefixesCache s)), [])
    end
  else (inr tt, s1, []).
Proof.
  unfold store_result, of_option, mbind, mget, mput, mret, mraise; simpl.
  by repeat (case_match; simplify_eq/=).
Qed.

(** *** The call, case by case *)

Lemma lookup_uncached_run e IP s :
  uncached e IP s =
  match scan e IP (IPPrefixesCache s) s with
  | (inl x, t, ev) => (inl x, t, ev)
  | (inr hit, t, ev) =>
      match (if String.eqb (ASN (seed_of hit)) ""
             then remote e IP (seed_of hit) else mret (seed_of hit)) t with
      | (inl x, t2, ev2) => (inl x, t2, (ev ++ ev2)%list)
      | (inr R, t2, ev2) =>
          match store_result IP R t2 with
          | (inl x, t3, ev3) => (inl x, t3, (ev ++ ev2 ++ ev3)%list)
          | (inr _, t3, ev3) => (inr R, t3, (ev ++ ev2 ++ ev3)%list)
          end
      end
  end.
Proof.
  unfold lookup_uncached, mbind, mget, mret; simpl.
  repeat (case_match; simplify_eq/=); rewrite ?app_nil_r, ?app_assoc; done.
Qed.

Lemma resolve_run e in_IP s :
  resolve e in_IP s =
  match ip_exploded in_IP with
  | None => (inl InvalidAddress, s, [])
  | Some IP =>
      let s1 := set_addr_objects s ({[IP]} ∪ IPAddressObjects s) in
      if is_globally_routable IP then
        match IPAddressesCache s !! IP with
        | Some r => if fresh s e (TS r) then (inr r, s1, []) else uncached e IP s1
        | None => uncached e IP s1
        end
      else (inr (set_ASN Result0 "unknown"), s1, [])
  end.
Proof.
  unfold GetIPInformation, of_option, mbind, mget, mput, mret, mraise; simpl.
  destruct (ip_exploded in_IP) as [IP|]; simpl; [|done].
  destruct (is_globally_routable IP); simpl; [|done].
  unfold fresh; simpl.
  repeat (case_match; simplify_eq/=); done.
Qed.

Lemma scan_on_self e IP ps s :
  match scan e IP ps s with
  | (r, t, ev) => t = set_prefix_objects s (IPPrefixObjects t) /\ ev = []
  end.
Proof.
  pose proof (prefix_scan_frame e IP ps s s eq_refl eq_refl) as H.
  destruct (scan e IP ps s) as [[r t] ev]. tauto.
Qed.

(** Errors other than the unhashable-prefix one leave both caches as
    they were. *)
Lemma lookup_uncached_error_frame e IP s x t ev :
  uncached e IP s = (inl x, t, ev) -> x <> UnhashableKey ->
  IPAddressesCache t = IPAddressesCache s /\ IPPrefixesCache t = IPPrefixesCache s.
Proof.
  rewrite lookup_uncached_run. intros Hrun Hx.
  pose proof (scan_on_self e IP (IPPrefixesCache s) s) as Hs.
  destruct (scan e IP (IPPrefixesCache s) s) as [[[y|hit] t1] ev1].
  - simplify_eq. destruct Hs as [-> _]. by destruct s.
  - destruct Hs as [Ht1 _].
    assert (Hc : IPAddressesCache t1 = IPAddressesCache s /\
                 IPPrefixesCache t1 = IPPrefixesCache s)
      by (rewrite Ht1; by destruct s).
    destruct (String.eqb (ASN (seed_of hit)) "").
    + pose proof (remote_lookup_state e IP (seed_of hit) t1) as Hst.
      destruct (remote e IP (seed_of hit) t1) as [[[y|R] t2] ev2]; simpl in Hst; subst t2.
      * simplify_eq. done.
      * rewrite store_result_run in Hrun.
        repeat case_match; simplify_eq/=; congruence.
    + rewrite mret_run in Hrun. rewrite store_result_run in Hrun.
      repeat case_match; simplify_eq/=; congruence.
Qed.

Lemma remote_lookup_indep e IP R s s' :
  remote e IP R s' =
  (fst (fst (remote e IP R s)), s', snd (remote e IP R s)).
Proof.
  rewrite !remote_lookup_run.
  destruct (urlopen e (ripe_url IP)) as [body|]; [|done].
  destruct (json_loads body) as [obj|]; [|done].
  destruct (apply_response_pure e obj R s) as [r Hr].
  destruct (apply_response_pure e obj R s') as [r' Hr'].
  assert (r' = r) as ->.
  { revert Hr Hr'. unfold apply_response, of_option, mbind, mret, mraise.
    repeat (case_match; simplify_eq/=); congruence. }
  rewrite Hr, Hr'. destruct r as [x|R1]; [done|].
  rewrite !enrich_hostname_run. by destruct (_ || _).
Qed.

Lemma prefix_scan_skip_stale e IP l1 k r l2 :
  forall s, Z.lt (p_TS r) (now e - MAX_CACHE s) ->
  scan e IP (l1 ++ (k, r) :: l2) s = scan e IP (l1 ++ l2) s.
Proof.
  induction l1 as [|[k1 r1] l1 IH]; intros s Hst; simpl.
  - unfold mbind, mget. simpl.
    assert (fresh s e (p_TS r) = false) as -> by (unfold fresh; lia).
    destruct (scan e IP l2 s) as [[x t] ev]. done.
  - unfold mbind, mget; simpl.
    destruct (fresh s e (p_TS r1)); [|by rewrite IH].
    unfold prefix_object, mbind, mget, mput, mret, mraise; simpl.
    destruct (py_dict_get k1 (IPPrefixObjects s)) as [k0|]; simpl.
    + destruct (net_contains k0 IP); [done|]. by rewrite IH.
    + destruct (net_parse_ok k1); [|done]. simpl.
      destruct (net_contains k1 IP); [done|].
      rewrite IH; [done|]. by destruct s.
Qed.

Lemma prefix_update_keys k r d : map fst (prefix_update k r d) = map fst d.
Proof.
  induction d as [|[k' r'] d IH]; simpl; [done|].
  destruct (py_key_eq k' k); simpl; by rewrite ?IH.
Qed.

Lemma prefix_upsert_keys k0 k r d :
  In k0 (map fst d) -> In k0 (map fst (prefix_upsert k r d)).
Proof.
  unfold prefix_upsert. destruct (existsb _ d).
  - by rewrite prefix_update_keys.
  - rewrite map_app. intros H. apply in_or_app. by left.
Qed.

(** Every call makes at most one fetch, and reverse DNS only after it. *)
Lemma lookup_uncached_events e IP s :
  snd (uncached e IP s) = [] \/
  snd (uncached e IP s) = [EvFetch (ripe_url IP)] \/
  snd (uncached e IP s) = [EvFetch (ripe_url IP); EvDns IP].
Proof.
  rewrite lookup_uncached_run.
  pose proof (scan_on_self e IP (IPPrefixesCache s) s) as Hs.
  destruct (scan e IP (IPPrefixesCache s) s) as [[[y|hit] t1] ev1];
    destruct Hs as [_ ->]; [by left|].
  destruct (String.eqb (ASN (seed_of hit)) "").
  - rewrite remote_lookup_run.
    repeat case_match; simplify_eq/=; rewrite ?store_result_run in *;
      try rewrite enrich_hostname_run in *;
      repeat (case_match; simplify_eq/=); auto.
  - rewrite mret_run, store_result_run. repeat (case_match; simplify_eq/=); auto.
Qed.

(** A routable address without a fresh address-cache entry goes on to
    the prefix scan. *)
Lemma resolve_miss e in_IP IP s :
  ip_exploded in_IP = Some IP ->
  is_globally_routable IP = true ->
  (forall a, IPAddressesCache s !! IP = Some a -> fresh s e (TS a) = false) ->
  resolve e in_IP s = uncached e IP (set_addr_objects s ({[IP]} ∪ IPAddressObjects s)).
Proof.
  intros Hip Hr Hmiss. rewrite resolve_run, Hip, Hr.
  destruct (IPAddressesCache s !! IP) as [a|] eqn:Ha; [|done].
  by rewrite (Hmiss a eq_refl).
Qed.

(** What follows the scan, once its result is known. *)
Lemma lookup_uncached_from_scan e IP s s1 hit :
  MAX_CACHE s1 = MAX_CACHE s ->
  IPPrefixObjects s1 = IPPrefixObjects s ->
  IPPrefixesCache s1 = IPPrefixesCache s ->
  fst (fst (scan e IP (IPPrefixesCache s) s)) = inr hit ->
  exists t1,
    IPAddressesCache t1 = IPAddressesCache s1 /\
    IPPrefixesCache t1 = IPPrefixesCache s1 /\
    MAX_CACHE t1 = MAX_CACHE s1 /\
    uncached e IP s1 =
    match (if String.eqb (ASN (seed_of hit)) ""
           then remote e IP (seed_of hit) else mret (seed_of hit)) t1 with
    | (inl x, t2, ev2) => (inl x, t2, ev2)
    | (inr R, t2, ev2) =>
        match store_result IP R t2 with
        | (inl x, t3, ev3) => (inl x, t3, (ev2 ++ ev3)%list)
        | (inr _, t3, ev3) => (inr R, t3, (ev2 ++ ev3)%list)
        end
    end.
Proof.
  intros Hm Ho Hp Hscan.
  pose proof (prefix_scan_frame e IP (IPPrefixesCache s) s s1
                (eq_sym Hm) (eq_sym Ho)) as Hf.
  destruct (scan e IP (IPPrefixesCache s) s) as [[r t] ev]. simpl in Hscan. subst r.
  destruct Hf as (_ & _ & Hs1).
  exists (set_prefix_objects s1 (IPPrefixObjects t)).
  split; [by destruct s1|]. split; [by destruct s1|]. split; [by destruct s1|].
  rewrite lookup_uncached_run, Hp, Hs1. simpl. done.
Qed.

Lemma resolve_prefix_hit_run e in_IP IP s k r :
  ip_exploded in_IP = Some IP ->
  is_globally_routable IP = true ->
  (forall a, IPAddressesCache s !! IP = Some a -> fresh s e (TS a) = false) ->
  fst (fst (scan e IP (IPPrefixesCache s) s)) = inr (Some (k, r)) ->
  p_ASN r <> "" ->
  match resolve e in_IP s with
  | (res, s', ev) =>
      res = inr (prefix_hit Result0 k r) /\ ev = [] /\
      IPAddressesCache s' = <[IP := prefix_hit Result0 k r]> (IPAddressesCache s)
  end.
Proof.
  intros Hip Hr Hmiss Hscan Hasn.
  rewrite (resolve_miss e in_IP IP s Hip Hr Hmiss).
  set (s1 := set_addr_objects s ({[IP]} ∪ IPAddressObjects s)).
  destruct (lookup_uncached_from_scan e IP s s1 (Some (k, r))) as (t1 & Ha & _ & _ & ->);
    [by subst s1; destruct s|by subst s1; destruct s|by subst s1; destruct s|done|].
  simpl. destruct (String.eqb (p_ASN r) "") eqn:E;
    [apply String.eqb_eq in E; congruence|].
  rewrite mret_run, store_result_run. simpl.
  rewrite Ha. subst s1. simpl.
  destruct (py_ne_empty (key_json k)); [destruct k|]; simpl; auto.
Qed.

(** The [except] branch of the [try] block, with the Holder it leaves:
    the holder just read when the first two reads succeeded, the old one
    otherwise. *)
Lemma try_asns_failure_holder obj R :
  obind (obind (first_asn_entry obj) (fun x => py_getitem x "asn"))
    (py_str container_str) = None \/
  obind (first_asn_entry obj) (fun x => py_getitem x "holder") = None \/
  obind (py_getitem obj "data") (fun d => py_getitem d "resource") = None ->
  let R' := try_asns container_str obj R in
  ASN R' = "unknown" /\ TS R' = TS R /\ HostName R' = HostName R /\
  Prefix R' = Prefix R /\
  Holder R' =
    match obind (obind (first_asn_entry obj) (fun x => py_getitem x "asn"))
            (py_str container_str),
          obind (first_asn_entry obj) (fun x => py_getitem x "holder") with
    | Some _, Some h => h
    | _, _ => Holder R
    end.
Proof.
  unfold try_asns.
  destruct (obind (obind (first_asn_entry obj) (fun x => py_getitem x "asn"))
              (py_str container_str)) as [a|];
  destruct (obind (first_asn_entry obj) (fun x => py_getitem x "holder")) as [h|];
  destruct (obind (py_getitem obj "data") (fun d => py_getitem d "resource")) as [p|];
  simpl; intros [H|[H|H]]; try discriminate; auto 10.
Qed.

Lemma try_asns_TS obj R : TS (try_asns container_str obj R) = TS R.
Proof. unfold try_asns. by repeat case_match. Qed.

Lemma try_asns_HostName obj R :
  HostName (try_asns container_str obj R) = HostName R.
Proof. unfold try_asns. by repeat case_match. Qed.

(** With status ["ok"], the result carries the time of the fetch. *)
Lemma apply_response_ok_TS e obj R s R1 s' ev :
  apply_response container_str e obj R s = (inr R1, s', ev) ->
  match py_getitem obj "status" with
  | Some st => py_eq_str st "ok"
  | None => false
  end = true ->
  TS R1 = now e.
Proof.
  unfold apply_response, of_option, mbind, mret, mraise.
  destruct (py_getitem obj "status") as [st|]; simpl; [|congruence].
  intros Hrun Hok. rewrite Hok in Hrun.
  repeat (case_match; simplify_eq/=); by rewrite ?try_asns_TS.
Qed.

(** A successful call past the address probe: the address cache gets the
    result, and the trace is empty, a lone fetch, or a fetch followed by
    the reverse-DNS lookup exactly when ASN is a digit string or
    "not announced". *)
Lemma lookup_uncached_ok e IP s R t ev :
  uncached e IP s = (inr R, t, ev) ->
  IPAddressesCache t = <[IP := R]> (IPAddressesCache s) /\
  MAX_CACHE t = MAX_CACHE s /\
  (ev = [] \/
   (ev = [EvFetch (ripe_url IP)] /\
    (isdigit (ASN R) || String.eqb (ASN R) "not announced") = false /\
    (status_ok (urlopen e (ripe_url IP)) = true -> TS R = now e)) \/
   (ev = [EvFetch (ripe_url IP); EvDns IP] /\
    (isdigit (ASN R) || String.eqb (ASN R) "not announced") = true /\
    HostName R = hostname_of (getfqdn e IP) IP /\
    (status_ok (urlopen e (ripe_url IP)) = true -> TS R = now e))).
Proof.
  rewrite lookup_uncached_run. intros Hrun.
  pose proof (scan_on_self e IP (IPPrefixesCache s) s) as Hs.
  destruct (scan e IP (IPPrefixesCache s) s) as [[[y|hit] t1] ev1];
    [by simplify_eq|].
  destruct Hs as [Ht1 ->].
  assert (Hc : IPAddressesCache t1 = IPAddressesCache s /\ MAX_CACHE t1 = MAX_CACHE s)
    by (rewrite Ht1; by destruct s).
  destruct Hc as [Hc1 Hc2].
  destruct (String.eqb (ASN (seed_of hit)) "").
  - rewrite remote_lookup_run in Hrun.
    unfold response_status_ok.
    destruct (urlopen e (ripe_url IP)) as [body|]; [|by simplify_eq]. simpl.
    destruct (json_loads body) as [obj|]; [|by simplify_eq]. simpl.
    destruct (apply_response container_str e obj (seed_of hit) t1)
      as [[[x|R1] t2] ev2] eqn:Hap; [by simplify_eq|].
    pose proof (apply_response_ok_TS e obj (seed_of hit) t1 R1 t2 ev2 Hap) as HTS.
    rewrite enrich_hostname_run in Hrun.
    destruct (isdigit (ASN R1) || String.eqb (ASN R1) "not announced") eqn:Hcond;
      rewrite store_result_run in Hrun; simpl in Hrun;
      repeat (case_match; simplify_eq/=); rewrite ?Hc1, ?Hc2;
      (split; [done|]); (split; [done|]); right; auto 10.
  - rewrite mret_run, store_result_run in Hrun.
    repeat (case_match; simplify_eq/=); rewrite ?Hc1, ?Hc2; auto.
Qed.

Lemma resolve_count_fetch e in_IP s :
  (count_fetch (snd (resolve e in_IP s)) <= 1)%nat.
Proof.
  rewrite resolve_run.
  destruct (ip_exploded in_IP) as [IP|]; simpl; [|lia].
  destruct (is_globally_routable IP); simpl; [|lia].
  assert (Hu : forall s1, (count_fetch (snd (uncached e IP s1)) <= 1)%nat).
  { intros s1. destruct (lookup_uncached_events e IP s1) as [->|[->| ->]]; simpl; lia. }
  destruct (IPAddressesCache s !! IP) as [a|]; [destruct (fresh s e (TS a)); simpl|];
    auto; lia.
Qed.

(** Past the address probe, the result and the trace depend on the prefix
    cache only through what the scan does. *)
Lemma lookup_uncached_same_scan e IP s s' :
  MAX_CACHE s' = MAX_CACHE s -> IPPrefixObjects s' = IPPrefixObjects s ->
  scan e IP (IPPrefixesCache s') s = scan e IP (IPPrefixesCache s) s ->
  fst (fst (uncached e IP s')) = fst (fst (uncached e IP s)) /\
  snd (uncached e IP s') = snd (uncached e IP s).
Proof.
  intros Hm Ho Hsc. rewrite !lookup_uncached_run.
  pose proof (prefix_scan_frame e IP (IPPrefixesCache s') s s'
                (eq_sym Hm) (eq_sym Ho)) as Hf.
  rewrite Hsc in Hf.
  pose proof (scan_on_self e IP (IPPrefixesCache s) s) as Hs.
  destruct (scan e IP (IPPrefixesCache s) s) as [[[y|hit] t] ev];
    destruct Hf as (_ & _ & ->); destruct Hs as [_ ->]; [done|].
  destruct (String.eqb (ASN (seed_of hit)) "").
  - rewrite (remote_lookup_indep e IP (seed_of hit) t).
    destruct (remote e IP (seed_of hit) t) as [[[y|R] t2] ev2]; simpl; [done|].
    rewrite !store_result_run; simpl.
    destruct (py_ne_empty (Prefix R)); [destruct (json_key (Prefix R))|]; done.
  - rewrite !mret_run, !store_result_run; simpl.
    destruct (py_ne_empty (Prefix (seed_of hit)));
      [destruct (json_key (Prefix (seed_of hit)))|]; done.
Qed.

(** Past the address probe, the address cache is at most written at the
    address itself, and the prefix cache at most upserted. *)
Lemma lookup_uncached_caches e IP s :
  (IPAddressesCache (snd (fst (uncached e IP s))) = IPAddressesCache s \/
   exists R, IPAddressesCache (snd (fst (uncached e IP s))) =
             <[IP := R]> (IPAddressesCache s)) /\
  (IPPrefixesCache (snd (fst (uncached e IP s))) = IPPrefixesCache s \/
   exists k r, IPPrefixesCache (snd (fst (uncached e IP s))) =
               prefix_upsert k r (IPPrefixesCache s)).
Proof.
  rewrite lookup_uncached_run.
  pose proof (scan_on_self e IP (IPPrefixesCache s) s) as Hs.
  destruct (scan e IP (IPPrefixesCache s) s) as [[[y|hit] t1] ev1];
    destruct Hs as [Ht1 _].
  { rewrite Ht1. destruct s; simpl; auto. }
  assert (Hc : IPAddressesCache t1 = IPAddressesCache s /\
               IPPrefixesCache t1 = IPPrefixesCache s)
    by (rewrite Ht1; by destruct s).
  destruct Hc as [Ha Hp].
  destruct (String.eqb (ASN (seed_of hit)) "").
  - pose proof (remote_lookup_state e IP (seed_of hit) t1) as Hst.
    destruct (remote e IP (seed_of hit) t1) as [[[y|R] t2] ev2];
      simpl in Hst; subst t2; simpl; [rewrite Ha, Hp; auto|].
    rewrite store_result_run; simpl.
    destruct (py_ne_empty (Prefix R)); [destruct (json_key (Prefix R))|];
      simpl; rewrite ?Ha, ?Hp; eauto 10.
  - rewrite mret_run, store_result_run; simpl.
    destruct (py_ne_empty (Prefix (seed_of hit)));
      [destruct (json_key (Prefix (seed_of hit)))|];
      simpl; rewrite ?Ha, ?Hp; eauto 10.
Qed.

Lemma fresh_false_lt s e ts :
  fresh s e ts = false -> Z.lt ts (now e - MAX_CACHE s).
Proof. unfold fresh. intros H. apply Z.leb_gt in H. lia. Qed.

(** *** Claims *)

(** C3: for a syntactically valid address that is not globally routable,
    [GetIPInformation] returns [{ASN: "unknown", Holder: "", Prefix: "",
    HostName: "", TS: 0}] whatever the caches hold (they are not read),
    leaves both cache mappings unchanged, and makes no outbound call. *)
Theorem resolve_not_routable e in_IP IP s :
  ip_exploded in_IP = Some IP ->
  is_globally_routable IP = false ->
  match resolve e in_IP s with
  | (r, s', ev) =>
      r = inr {| TS := 0; ASN := "unknown"; Holder := JStr ""; Prefix := JStr "";
                 HostName := "" |} /\
      IPAddressesCache s' = IPAddressesCache s /\
      IPPrefixesCache s' = IPPrefixesCache s /\ ev = []
  end.
Proof.
  intros Hip Hr. rewrite resolve_run, Hip, Hr. simpl. auto.
Qed.

(** C9: on a fresh address-cache hit, [GetIPInformation] returns the
    stored record itself, leaves both cache mappings unchanged (the
    entry's TS is not refreshed, nothing is written back) and makes no
    outbound call. *)
Theorem resolve_fresh_address_hit e in_IP IP s r :
  ip_exploded in_IP = Some IP ->
  is_globally_routable IP = true ->
  IPAddressesCache s !! IP = Some r ->
  fresh s e (TS r) = true ->
  match resolve e in_IP s with
  | (res, s', ev) =>
      res = inr r /\ IPAddressesCache s' = IPAddressesCache s /\
      IPPrefixesCache s' = IPPrefixesCache s /\ ev = []
  end.
Proof.
  intros Hip Hr Hc Hf. rewrite resolve_run, Hip, Hr, Hc, Hf. simpl. auto.
Qed.

(** C8: when [GetIPInformation] raises [InvalidAddress] (malformed input)
    or [LookupError] (transport failure of the remote fetch), neither the
    address-cache mapping nor the prefix-cache mapping has changed. *)
Theorem resolve_error_no_mutation e in_IP s x s' ev :
  resolve e in_IP s = (inl x, s', ev) ->
  x = InvalidAddress \/ x = LookupError ->
  IPAddressesCache s' = IPAddressesCache s /\ IPPrefixesCache s' = IPPrefixesCache s.
Proof.
  intros Hrun Hx. assert (Hne : x <> UnhashableKey) by (destruct Hx; by subst).
  rewrite resolve_run in Hrun.
  destruct (ip_exploded in_IP) as [IP|]; [|by simplify_eq].
  destruct (is_globally_routable IP); [|by simplify_eq].
  set (s1 := set_addr_objects s ({[IP]} ∪ IPAddressObjects s)) in Hrun.
  assert (Hs1 : IPAddressesCache s1 = IPAddressesCache s /\
                IPPrefixesCache s1 = IPPrefixesCache s) by (subst s1; by destruct s).
  destruct (IPAddressesCache s !! IP) as [r|];
    [destruct (fresh s e (TS r)); [by simplify_eq|]|];
    destruct Hs1; destruct (lookup_uncached_error_frame e IP s1 x s' ev Hrun Hne);
    split; congruence.
Qed.

(** C2 (as amended): for a globally routable address with no fresh
    address-cache entry, when the prefix scan (fresh entries only, in the
    mapping's iteration order) stops at an entry [(k, r)] containing the
    address and that entry's ASN is non-empty, [GetIPInformation] returns
    [{TS: r.TS, ASN: r.ASN, Holder: r.Holder (or ""), Prefix: k,
    HostName: ""}], makes no remote fetch (no outbound call at all), and
    stores that same record in the address cache under the address. *)
Theorem resolve_prefix_hit e in_IP IP s k r :
  ip_exploded in_IP = Some IP ->
  is_globally_routable IP = true ->
  (forall a, IPAddressesCache s !! IP = Some a -> fresh s e (TS a) = false) ->
  fst (fst (scan e IP (IPPrefixesCache s) s)) = inr (Some (k, r)) ->
  p_ASN r <> "" ->
  let R := {| TS := p_TS r; ASN := p_ASN r;
              Holder := match p_Holder r with Some h => h | None => JStr "" end;
              Prefix := key_json k; HostName := "" |} in
  match resolve e in_IP s with
  | (res, s', ev) =>
      res = inr R /\ ev = [] /\ IPAddressesCache s' = <[IP := R]> (IPAddressesCache s)
  end.
Proof.
  intros Hip Hr Hmiss Hscan Hasn.
  exact (resolve_prefix_hit_run e in_IP IP s k r Hip Hr Hmiss Hscan Hasn).
Qed.

(** C10: a prefix record without a [Holder] field causes no error: when
    the scan stops on such a record (fresh, containing the address, with
    a non-empty ASN), [GetIPInformation] returns normally with
    [Holder = ""]. *)
Theorem resolve_prefix_hit_without_holder e in_IP IP s k r :
  ip_exploded in_IP = Some IP ->
  is_globally_routable IP = true ->
  (forall a, IPAddressesCache s !! IP = Some a -> fresh s e (TS a) = false) ->
  fst (fst (scan e IP (IPPrefixesCache s) s)) = inr (Some (k, r)) ->
  p_ASN r <> "" ->
  p_Holder r = None ->
  exists R, fst (fst (resolve e in_IP s)) = inr R /\ Holder R = JStr "".
Proof.
  intros Hip Hr Hmiss Hscan Hasn Hh.
  pose proof (resolve_prefix_hit_run e in_IP IP s k r Hip Hr Hmiss Hscan Hasn) as H.
  destruct (resolve e in_IP s) as [[res s'] ev]. destruct H as (-> & _ & _).
  eexists; split; [reflexivity|]. simpl. by rewrite Hh.
Qed.

(** C1 (as amended): for a globally routable address with no fresh
    address-cache entry and no fresh prefix entry containing it, a
    response whose [status] is not ["ok"] adds nothing to the prefix
    cache and triggers no reverse-DNS lookup, but [GetIPInformation]
    returns [{TS: 0, ASN: "", Holder: "", Prefix: "", HostName: ""}] and
    stores exactly that record, with TS 0, in the address cache. *)
Theorem resolve_status_not_ok e in_IP IP s body obj st :
  ip_exploded in_IP = Some IP ->
  is_globally_routable IP = true ->
  (forall a, IPAddressesCache s !! IP = Some a -> fresh s e (TS a) = false) ->
  fst (fst (scan e IP (IPPrefixesCache s) s)) = inr None ->
  urlopen e (ripe_url IP) = Some body ->
  json_loads body = Some obj ->
  py_getitem obj "status" = Some st ->
  py_eq_str st "ok" = false ->
  let R0 := {| TS := 0; ASN := ""; Holder := JStr ""; Prefix := JStr "";
               HostName := "" |} in
  match resolve e in_IP s with
  | (res, s', ev) =>
      res = inr R0 /\
      IPAddressesCache s' = <[IP := R0]> (IPAddressesCache s) /\
      IPPrefixesCache s' = IPPrefixesCache s /\
      ev = [EvFetch (ripe_url IP)]
  end.
Proof.
  intros Hip Hr Hmiss Hscan Hu Hj Hst Hok.
  rewrite (resolve_miss e in_IP IP s Hip Hr Hmiss).
  set (s1 := set_addr_objects s ({[IP]} ∪ IPAddressObjects s)).
  destruct (lookup_uncached_from_scan e IP s s1 None) as (t1 & Ha & Hp & _ & ->);
    [by subst s1; destruct s|by subst s1; destruct s|by subst s1; destruct s|done|].
  simpl. rewrite remote_lookup_run, Hu, Hj.
  unfold apply_response at 1, of_option, mbind, mret. rewrite Hst, Hok. simpl.
  rewrite Ha, Hp. subst s1. simpl. auto.
Qed.

(** C5 (as amended): for a routable address with no fresh cache hit whose
    prefix scan leaves the ASN empty, so that the service is asked:
    - when the response decodes, has [status] ["ok"] and a [data.asns]
      value other than [[]], a failure while reading [asns[0].asn] (or
      converting it with [str]), [asns[0].holder] or [data.resource] does
      not make [GetIPInformation] raise: it returns a result with ASN
      "unknown", TS the fetch time, HostName "", Prefix unchanged from
      before the fetch, and Holder the holder just read when only
      [data.resource] failed, unchanged from before the fetch otherwise;
    - a body that is not JSON makes it raise [JSONDecodeError], and a
      failed read of [status], of [data] (status "ok") or of [data.asns]
      makes it raise (the [KeyError] or [TypeError] of the access). *)
Theorem resolve_malformed_asn_entry e in_IP IP s hit :
  ip_exploded in_IP = Some IP ->
  is_globally_routable IP = true ->
  (forall a, IPAddressesCache s !! IP = Some a -> fresh s e (TS a) = false) ->
  fst (fst (scan e IP (IPPrefixesCache s) s)) = inr hit ->
  ASN (seed_of hit) = "" ->
  (forall body obj data asns,
     urlopen e (ripe_url IP) = Some body ->
     json_loads body = Some obj ->
     py_getitem obj "status" = Some (JStr "ok") ->
     py_getitem obj "data" = Some data ->
     py_getitem data "asns" = Some asns ->
     py_ne_nil asns = true ->
     obind (obind (first_asn_entry obj) (fun x => py_getitem x "asn"))
       (py_str container_str) = None \/
     obind (first_asn_entry obj) (fun x => py_getitem x "holder") = None \/
     obind (py_getitem obj "data") (fun d => py_getitem d "resource") = None ->
     exists R,
       fst (fst (resolve e in_IP s)) = inr R /\
       ASN R = "unknown" /\ TS R = now e /\ HostName R = "" /\
       Prefix R = Prefix (seed_of hit) /\
       Holder R =
         match obind (obind (first_asn_entry obj) (fun x => py_getitem x "asn"))
                 (py_str container_str),
               obind (first_asn_entry obj) (fun x => py_getitem x "holder") with
         | Some _, Some h => h
         | _, _ => Holder (seed_of hit)
         end) /\
  (forall body,
     urlopen e (ripe_url IP) = Some body ->
     json_loads body = None ->
     fst (fst (resolve e in_IP s)) = inl JSONDecodeError) /\
  (forall body obj,
     urlopen e (ripe_url IP) = Some body ->
     json_loads body = Some obj ->
     py_getitem obj "status" = None \/
     (py_getitem obj "status" = Some (JStr "ok") /\
      (py_getitem obj "data" = None \/
       exists data, py_getitem obj "data" = Some data /\ py_getitem data "asns" = None)) ->
     fst (fst (resolve e in_IP s)) = inl FieldAccessError).
Proof.
  intros Hip Hr Hmiss Hscan Hseed.
  rewrite (resolve_miss e in_IP IP s Hip Hr Hmiss).
  set (s1 := set_addr_objects s ({[IP]} ∪ IPAddressObjects s)).
  destruct (lookup_uncached_from_scan e IP s s1 hit) as (t1 & _ & _ & _ & ->);
    [by subst s1; destruct s|by subst s1; destruct s|by subst s1; destruct s|done|].
  rewrite Hseed. simpl. rewrite remote_lookup_run.
  split; [|split].
  - intros body obj data asns Hu Hj Hst Hd Ha Hne Hfail. rewrite Hu, Hj.
    unfold apply_response at 1, of_option, mbind, mret. rewrite Hst, Hd, Ha, Hne. simpl.
    destruct (try_asns_failure_holder obj (set_TS (seed_of hit) (now e)) Hfail)
      as (HA & HT & HH & HP & Hh).
    change (Prefix (set_TS (seed_of hit) (now e))) with (Prefix (seed_of hit)) in *.
    change (TS (set_TS (seed_of hit) (now e))) with (now e) in *.
    change (HostName (set_TS (seed_of hit) (now e))) with (HostName (seed_of hit)) in *.
    change (Holder (set_TS (seed_of hit) (now e))) with (Holder (seed_of hit)) in *.
    rewrite enrich_hostname_run, HA. simpl.
    rewrite store_result_run, HP.
    assert (Hk : py_ne_empty (Prefix (seed_of hit)) = false \/
                 exists k, json_key (Prefix (seed_of hit)) = Some k).
    { destruct hit as [[k r]|]; simpl; [|by left].
      right. exists k. by destruct k. }
    assert (Hhn : HostName (seed_of hit) = "") by (by destruct hit as [[k r]|]).
    destruct Hk as [Hk|[k Hk]]; [rewrite Hk|rewrite Hk; destruct (py_ne_empty _)];
      simpl; eexists; (split; [reflexivity|]); simpl in *;
      repeat split; try done; rewrite ?HT, ?HH, ?Hhn; auto.
  - intros body Hu Hj. rewrite Hu, Hj. reflexivity.
  - intros body obj Hu Hj Hfail. rewrite Hu, Hj.
    unfold apply_response at 1, of_option, mbind, mret, mraise.
    destruct Hfail as [Hst|[Hst [Hd|(data & Hd & Ha)]]]; rewrite Hst; simpl;
      [reflexivity| |]; rewrite Hd; simpl; [reflexivity|]. rewrite Ha. reflexivity.
Qed.

(** C6 (as amended): in a call that returns normally, the reverse-DNS
    lookup is made only on the remote-fetch path, and there exactly when
    the final ASN is a non-empty digit string or "not announced" (so never
    when it is "unknown"); fresh address-cache or prefix-cache hits never
    make it.  It queries the canonical address, and a returned name equal
    to that address or empty gives HostName "unknown", any other name is
    the HostName. *)
Theorem resolve_reverse_dns e in_IP IP s R s' ev :
  ip_exploded in_IP = Some IP ->
  resolve e in_IP s = (inr R, s', ev) ->
  (In (EvDns IP) ev <->
   In (EvFetch (ripe_url IP)) ev /\
   (isdigit (ASN R) || String.eqb (ASN R) "not announced") = true) /\
  (forall h, In (EvDns h) ev -> h = IP) /\
  (In (EvDns IP) ev -> HostName R = hostname_of (getfqdn e IP) IP).
Proof.
  intros Hip Hrun. rewrite resolve_run, Hip in Hrun.
  destruct (is_globally_routable IP); [|simplify_eq/=; naive_solver].
  assert (Hu : forall s1, uncached e IP s1 = (inr R, s', ev) ->
    (In (EvDns IP) ev <->
     In (EvFetch (ripe_url IP)) ev /\
     (isdigit (ASN R) || String.eqb (ASN R) "not announced") = true) /\
    (forall h, In (EvDns h) ev -> h = IP) /\
    (In (EvDns IP) ev -> HostName R = hostname_of (getfqdn e IP) IP)).
  { intros s1 H1.
    destruct (lookup_uncached_ok e IP s1 R s' ev H1)
      as (_ & _ & [->|[(-> & Hc & _)|(-> & Hc & Hh & _)]]);
      simpl; rewrite ?Hc; naive_solver. }
  destruct (IPAddressesCache s !! IP) as [a|];
    [destruct (fresh s e (TS a)); [simplify_eq/=; naive_solver|]|]; eauto.
Qed.

(** C4 (as amended): two calls for the same address whose clock readings
    are at most MAX_CACHE seconds apart make at most one remote fetch in
    total, provided the first call returns normally and any response it
    fetched had status "ok".  (A first call that got another status
    stores a TS 0 record, see C1, and the second call fetches again.) *)
Theorem resolve_twice_one_fetch e1 e2 in_IP s0 R1 s1 ev1 :
  resolve e1 in_IP s0 = (inr R1, s1, ev1) ->
  (forall u, In (EvFetch u) ev1 -> status_ok (urlopen e1 u) = true) ->
  Z.abs (now e2 - now e1) <= MAX_CACHE s0 ->
  (count_fetch ev1 + count_fetch (snd (resolve e2 in_IP s1)) <= 1)%nat.
Proof.
  intros Hrun Hok Hwin.
  pose proof (resolve_count_fetch e2 in_IP s1) as Hc2.
  rewrite resolve_run in Hrun.
  destruct (ip_exploded in_IP) as [IP|] eqn:Hip; [|discriminate].
  destruct (is_globally_routable IP) eqn:Hr; [|simplify_eq/=; lia].
  assert (Hu : forall t, MAX_CACHE t = MAX_CACHE s0 ->
                 uncached e1 IP t = (inr R1, s1, ev1) ->
                 (count_fetch ev1 + count_fetch (snd (resolve e2 in_IP s1)) <= 1)%nat).
  { intros t Ht H1.
    destruct (lookup_uncached_ok e1 IP t R1 s1 ev1 H1)
      as (Hcache & Hmax & [->|[(-> & _ & Hts)|(-> & _ & _ & Hts)]]);
      [simpl; lia| |];
    (assert (HTS : TS R1 = now e1) by (apply Hts, Hok; simpl; auto));
    rewrite resolve_run, Hip, Hr, Hcache, lookup_insert_eq;
    (assert (Hf : fresh s1 e2 (TS R1) = true)
       by (unfold fresh; rewrite HTS, Hmax, Ht; apply Z.leb_le; lia));
    rewrite Hf; simpl; lia. }
  destruct (IPAddressesCache s0 !! IP) as [a|];
    [destruct (fresh s0 e1 (TS a)); [simplify_eq/=; lia|]|];
    (eapply Hu; [|exact Hrun]); by destruct s0.
Qed.

(** C7: a cached entry counts only when it is fresh, i.e. its timestamp is
    at least [now - MAX_CACHE].  (a) A fresh address-cache entry for a
    routable address is returned as is, with no outbound call.  (b) A stale
    address-cache entry is skipped: the call returns the same result and
    makes the same outbound calls as with the entry removed, and the entry
    is not deleted (the key is still present afterwards).  (c) A stale
    prefix-cache entry is skipped in the same way, and its key is still in
    the prefix cache afterwards.  Fresh prefix entries are the subject of
    C2. *)
Theorem resolve_freshness_filter e in_IP IP s :
  ip_exploded in_IP = Some IP ->
  (forall r,
     is_globally_routable IP = true ->
     IPAddressesCache s !! IP = Some r -> fresh s e (TS r) = true ->
     fst (fst (resolve e in_IP s)) = inr r /\ snd (resolve e in_IP s) = []) /\
  (forall r,
     IPAddressesCache s !! IP = Some r -> fresh s e (TS r) = false ->
     let s' := set_addr_cache s (delete IP (IPAddressesCache s)) in
     fst (fst (resolve e in_IP s)) = fst (fst (resolve e in_IP s')) /\
     snd (resolve e in_IP s) = snd (resolve e in_IP s') /\
     is_Some (IPAddressesCache (snd (fst (resolve e in_IP s))) !! IP)) /\
  (forall l1 k r l2,
     IPPrefixesCache s = (l1 ++ (k, r) :: l2)%list -> fresh s e (p_TS r) = false ->
     let s' := set_prefix_cache s (l1 ++ l2)%list in
     fst (fst (resolve e in_IP s)) = fst (fst (resolve e in_IP s')) /\
     snd (resolve e in_IP s) = snd (resolve e in_IP s') /\
     In k (map fst (IPPrefixesCache (snd (fst (resolve e in_IP s)))))).
Proof.
  intros Hip. split; [|split].
  - intros r Hr Ha Hf. rewrite resolve_run, Hip, Hr, Ha, Hf. done.
  - intros r Ha Hf s'. rewrite !resolve_run, Hip. cbv zeta.
    assert (Hd : IPAddressesCache s' !! IP = None)
      by (subst s'; simpl; apply lookup_delete_eq).
    rewrite Ha, Hf, Hd.
    destruct (is_globally_routable IP); [|simpl; by rewrite Ha].
    set (X := {[IP]} ∪ IPAddressObjects s).
    assert (HX : IPAddressObjects s' = IPAddressObjects s) by (subst s'; by destruct s).
    rewrite HX. fold X.
    destruct (lookup_uncached_same_scan e IP (set_addr_objects s X)
                (set_addr_objects s' X)) as [H1 H2];
      [subst s'; by destruct s|subst s'; by destruct s|subst s'; by destruct s|].
    split; [done|]. split; [done|].
    destruct (lookup_uncached_caches e IP (set_addr_objects s X)) as [[->|[R ->]] _];
      simpl; [rewrite Ha|rewrite lookup_insert_eq]; eauto.
  - intros l1 k r l2 Hp Hf s'. rewrite !resolve_run, Hip. cbv zeta.
    assert (HA : IPAddressesCache s' = IPAddressesCache s) by (subst s'; by destruct s).
    assert (HM : MAX_CACHE s' = MAX_CACHE s) by (subst s'; by destruct s).
    assert (HX : IPAddressObjects s' = IPAddressObjects s) by (subst s'; by destruct s).
    assert (Hk : In k (map fst (IPPrefixesCache s)))
      by (rewrite Hp, map_app; apply in_or_app; right; simpl; auto).
    rewrite HA, HX.
    set (X := {[IP]} ∪ IPAddressObjects s).
    assert (Hun :
      fst (fst (uncached e IP (set_addr_objects s X))) =
      fst (fst (uncached e IP (set_addr_objects s' X))) /\
      snd (uncached e IP (set_addr_objects s X)) =
      snd (uncached e IP (set_addr_objects s' X)) /\
      In k (map fst (IPPrefixesCache
                      (snd (fst (uncached e IP (set_addr_objects s X))))))).
    { destruct (lookup_uncached_same_scan e IP (set_addr_objects s X)
                  (set_addr_objects s' X)) as [H1 H2];
        [subst s'; by destruct s|subst s'; by destruct s| |].
      - assert (Hl1 : IPPrefixesCache (set_addr_objects s' X) = (l1 ++ l2)%list)
          by (subst s'; by destruct s).
        assert (Hl2 : IPPrefixesCache (set_addr_objects s X) =
                      (l1 ++ (k, r) :: l2)%list)
          by (rewrite <- Hp; by destruct s).
        rewrite Hl1, Hl2, prefix_scan_skip_stale; [done|].
        apply fresh_false_lt in Hf. by destruct s.
      - split; [done|]. split; [done|].
        destruct (lookup_uncached_caches e IP (set_addr_objects s X))
          as [_ [->|(k' & r' & ->)]]; simpl.
        + by destruct s.
        + apply prefix_upsert_keys. by destruct s. }
    assert (Hfr : forall ts, fresh s' e ts = fresh s e ts)
      by (intros; unfold fresh; by rewrite HM).
    destruct (is_globally_routable IP); [|simpl; by destruct s].
    destruct (IPAddressesCache s !! IP) as [a|]; [|done].
    rewrite Hfr. destruct (fresh s e (TS a)); [simpl; by destruct s|done].
Qed.

(** *** Further properties of the lookup *)

Lemma py_key_eq_refl k : py_key_eq k k = true.
Proof.
  destruct k; simpl; [done|destruct b|apply Z.eqb_refl|apply String.eqb_refl]; done.
Qed.

Lemma py_dict_get_cons {A} k k' (v : A) d :
  py_dict_get k ((k', v) :: d) = if py_key_eq k' k then Some v else py_dict_get k d.
Proof. unfold py_dict_get. simpl. by destruct (py_key_eq k' k). Qed.

Lemma py_dict_get_update k r d :
  existsb (fun kv => py_key_eq (fst kv) k) d = true ->
  py_dict_get k (prefix_update k r d) = Some r.
Proof.
  induction d as [|[k' r'] d IH]; simpl; [discriminate|].
  destruct (py_key_eq k' k) eqn:E; simpl; intros H;
    rewrite py_dict_get_cons, E; auto.
Qed.

(** [d[k] = r] followed by [d[k]] gives [r] back. *)
Lemma py_dict_get_upsert k r d : py_dict_get k (prefix_upsert k r d) = Some r.
Proof.
  unfold prefix_upsert. destruct (existsb _ d) eqn:E; [by apply py_dict_get_update|].
  induction d as [|[k' r'] d IH]; simpl in *.
  - by rewrite py_dict_get_cons, py_key_eq_refl.
  - rewrite py_dict_get_cons. destruct (py_key_eq k' k); [discriminate|]. auto.
Qed.

(** The prefix-cache write of a successful call past the address probe. *)
Lemma lookup_uncached_ok_prefix e IP s R t ev :
  uncached e IP s = (inr R, t, ev) ->
  (py_ne_empty (Prefix R) = false /\ IPPrefixesCache t = IPPrefixesCache s) \/
  (exists k, json_key (Prefix R) = Some k /\
     IPPrefixesCache t =
       prefix_upsert k {| p_TS := TS R; p_ASN := ASN R; p_Holder := Some (Holder R) |}
         (IPPrefixesCache s)).
Proof.
  rewrite lookup_uncached_run. intros Hrun.
  pose proof (scan_on_self e IP (IPPrefixesCache s) s) as Hs.
  destruct (scan e IP (IPPrefixesCache s) s) as [[[y|hit] t1] ev1]; [by simplify_eq|].
  destruct Hs as [Ht1 _].
  assert (Hp : IPPrefixesCache t1 = IPPrefixesCache s) by (rewrite Ht1; by destruct s).
  destruct (String.eqb (ASN (seed_of hit)) "").
  - pose proof (remote_lookup_state e IP (seed_of hit) t1) as Hst.
    destruct (remote e IP (seed_of hit) t1) as [[[y|R1] t2] ev2];
      simpl in Hst; subst t2; [by simplify_eq|].
    rewrite store_result_run in Hrun; simpl in Hrun.
    destruct (py_ne_empty (Prefix R1)) eqn:E; [destruct (json_key (Prefix R1)) eqn:E2|];
      simplify_eq/=; rewrite ?Hp; eauto.
  - rewrite mret_run, store_result_run in Hrun; simpl in Hrun.
    destruct (py_ne_empty (Prefix (seed_of hit))) eqn:E;
      [destruct (json_key (Prefix (seed_of hit))) eqn:E2|];
      simplify_eq/=; rewrite ?Hp; eauto.
Qed.

(** The prefix scan raises nothing but [InvalidBlock] (from
    [NetWrapper]). *)
Lemma prefix_scan_error e IP ps :
  forall s x t ev, scan e IP ps s = (inl x, t, ev) -> x = InvalidBlock.
Proof.
  induction ps as [|[k r] ps IH]; intros s x t ev; simpl; [by unfold mret|].
  unfold mbind, mget, prefix_object, mput, mret, mraise; simpl.
  intros H. repeat (unfold mbind, mget, mput, mret, mraise in *; simpl in *;
                    case_match; simplify_eq/=); eauto.
Qed.

(** The fetch step raises nothing but [LookupError], [JSONDecodeError]
    and [FieldAccessError]. *)
Lemma remote_lookup_error e IP R s x t ev :
  remote e IP R s = (inl x, t, ev) ->
  x = LookupError \/ x = JSONDecodeError \/ x = FieldAccessError.
Proof.
  rewrite remote_lookup_run.
  destruct (urlopen e (ripe_url IP)) as [body|]; [|intros; simplify_eq; auto].
  destruct (json_loads body) as [obj|]; [|intros; simplify_eq; auto].
  destruct (apply_response container_str e obj R s) as [[[y|R1] t1] ev1] eqn:Hap.
  - intros; simplify_eq. revert Hap. unfold apply_response, of_option, mbind, mret, mraise.
    repeat (case_match; simplify_eq/=); intros; simplify_eq; auto.
  - rewrite enrich_hostname_run. by destruct (_ || _).
Qed.

(** The only way past the address probe to raise [UnhashableKey]: the
    result, whose Prefix is unhashable, was already written to the address
    cache. *)
Lemma lookup_uncached_unhashable e IP s t ev :
  uncached e IP s = (inl UnhashableKey, t, ev) ->
  exists R, json_key (Prefix R) = None /\
    IPAddressesCache t = <[IP := R]> (IPAddressesCache s) /\
    IPPrefixesCache t = IPPrefixesCache s.
Proof.
  rewrite lookup_uncached_run. intros Hrun.
  pose proof (scan_on_self e IP (IPPrefixesCache s) s) as Hs.
  destruct (scan e IP (IPPrefixesCache s) s) as [[[y|hit] t1] ev1] eqn:Hsc;
    destruct Hs as [Ht1 _].
  { simplify_eq. apply prefix_scan_error in Hsc. discriminate. }
  assert (Hc : IPAddressesCache t1 = IPAddressesCache s /\
               IPPrefixesCache t1 = IPPrefixesCache s)
    by (rewrite Ht1; by destruct s).
  destruct Hc as [Ha Hp].
  destruct (String.eqb (ASN (seed_of hit)) "").
  - pose proof (remote_lookup_state e IP (seed_of hit) t1) as Hst.
    destruct (remote e IP (seed_of hit) t1) as [[[y|R1] t2] ev2] eqn:Hrem;
      simpl in Hst; subst t2.
    + simplify_eq. apply remote_lookup_error in Hrem. naive_solver.
    + rewrite store_result_run in Hrun; simpl in Hrun.
      destruct (py_ne_empty (Prefix R1)); [destruct (json_key (Prefix R1)) eqn:E2|];
        simplify_eq/=; rewrite ?Ha, ?Hp; eauto.
  - rewrite mret_run, store_result_run in Hrun; simpl in Hrun.
    destruct (py_ne_empty (Prefix (seed_of hit)));
      [destruct (json_key (Prefix (seed_of hit))) eqn:E2|];
      simplify_eq/=; rewrite ?Ha, ?Hp; eauto.
Qed.

(** Outbound calls of one call: none, one HTTP fetch of the RIPEstat URL
    for the canonical address, or that fetch followed by one reverse-DNS
    lookup of the canonical address. *)
Theorem resolve_outbound_calls e in_IP s :
  snd (resolve e in_IP s) = [] \/
  exists IP, ip_exploded in_IP = Some IP /\
    (snd (resolve e in_IP s) = [EvFetch (ripe_url IP)] \/
     snd (resolve e in_IP s) = [EvFetch (ripe_url IP); EvDns IP]).
Proof.
  rewrite resolve_run.
  destruct (ip_exploded in_IP) as [IP|]; simpl; [|by left].
  destruct (is_globally_routable IP); simpl; [|by left].
  assert (Hu : forall s1, snd (uncached e IP s1) = [] \/
    (snd (uncached e IP s1) = [EvFetch (ripe_url IP)] \/
     snd (uncached e IP s1) = [EvFetch (ripe_url IP); EvDns IP])).
  { intros s1. destruct (lookup_uncached_events e IP s1) as [->|[->| ->]]; auto. }
  destruct (IPAddressesCache s !! IP) as [a|]; [destruct (fresh s e (TS a)); simpl; [by left|]|];
    (destruct (Hu (set_addr_objects s ({[IP]} ∪ IPAddressObjects s))) as [H|H];
     [by left|right; eauto]).
Qed.

Lemma resolve_ok_cached e in_IP IP s R s' ev :
  ip_exploded in_IP = Some IP ->
  is_globally_routable IP = true ->
  resolve e in_IP s = (inr R, s', ev) ->
  IPAddressesCache s' !! IP = Some R.
Proof.
  intros Hip Hr Hrun. rewrite resolve_run, Hip, Hr in Hrun.
  destruct (IPAddressesCache s !! IP) as [a|] eqn:Ha;
    [destruct (fresh s e (TS a)); [simplify_eq/=; done|]|];
    destruct (lookup_uncached_ok e IP _ R s' ev Hrun) as [-> _];
    apply lookup_insert_eq.
Qed.

(** After a call for a routable address returns a record, the address
    cache holds that record under the canonical address. *)
Theorem resolve_result_cached e in_IP IP s R s' ev :
  ip_exploded in_IP = Some IP ->
  is_globally_routable IP = true ->
  resolve e in_IP s = (inr R, s', ev) ->
  IPAddressesCache s' !! IP = Some R.
Proof. exact (resolve_ok_cached e in_IP IP s R s' ev). Qed.

(** A call never removes a key from either cache, whatever its outcome. *)
Theorem resolve_keeps_keys e in_IP s :
  (forall a, is_Some (IPAddressesCache s !! a) ->
     is_Some (IPAddressesCache (snd (fst (resolve e in_IP s))) !! a)) /\
  (forall k, In k (map fst (IPPrefixesCache s)) ->
     In k (map fst (IPPrefixesCache (snd (fst (resolve e in_IP s)))))).
Proof.
  rewrite resolve_run.
  destruct (ip_exploded in_IP) as [IP|]; simpl; [|done].
  set (s1 := set_addr_objects s ({[IP]} ∪ IPAddressObjects s)).
  assert (H1 : IPAddressesCache s1 = IPAddressesCache s /\
               IPPrefixesCache s1 = IPPrefixesCache s) by (subst s1; by destruct s).
  destruct H1 as [Ha1 Hp1].
  assert (Hu : (forall a, is_Some (IPAddressesCache s !! a) ->
                 is_Some (IPAddressesCache (snd (fst (uncached e IP s1))) !! a)) /\
               (forall k, In k (map fst (IPPrefixesCache s)) ->
                 In k (map fst (IPPrefixesCache (snd (fst (uncached e IP s1))))))).
  { destruct (lookup_uncached_caches e IP s1) as [HA HP]. split.
    - intros a Hs. destruct HA as [->|[R ->]]; rewrite Ha1; [done|].
      destruct (decide (a = IP)) as [->|Hne];
        [rewrite lookup_insert_eq; eauto|by rewrite lookup_insert_ne].
    - intros k Hk. destruct HP as [->|(k' & r' & ->)]; rewrite Hp1; [done|].
      by apply prefix_upsert_keys. }
  destruct (is_globally_routable IP); [|subst s1; destruct s; simpl; auto].
  destruct (IPAddressesCache s !! IP) as [a|];
    [destruct (fresh s e (TS a)); [subst s1; destruct s; simpl; auto|]|]; exact Hu.
Qed.

(** After a successful call that went past the address probe with a
    non-empty Prefix, the prefix cache maps that prefix to the result's
    timestamp, ASN and Holder. *)
Theorem resolve_prefix_recorded e in_IP IP s R s' ev :
  ip_exploded in_IP = Some IP ->
  is_globally_routable IP = true ->
  (forall a, IPAddressesCache s !! IP = Some a -> fresh s e (TS a) = false) ->
  resolve e in_IP s = (inr R, s', ev) ->
  py_ne_empty (Prefix R) = true ->
  exists k, json_key (Prefix R) = Some k /\
    py_dict_get k (IPPrefixesCache s') =
      Some {| p_TS := TS R; p_ASN := ASN R; p_Holder := Some (Holder R) |}.
Proof.
  intros Hip Hr Hmiss Hrun Hne.
  rewrite (resolve_miss e in_IP IP s Hip Hr Hmiss) in Hrun.
  destruct (lookup_uncached_ok_prefix e IP _ R s' ev Hrun) as [[Hf _]|(k & Hk & ->)];
    [congruence|].
  exists k. split; [done|]. apply py_dict_get_upsert.
Qed.

(** A response whose prefix is a list or an object (unhashable) makes the
    call raise [UnhashableKey] (Python's [TypeError]) after the address
    cache has already been written; the prefix cache is left as it was. *)
Theorem resolve_unhashable_prefix e in_IP s s' ev :
  resolve e in_IP s = (inl UnhashableKey, s', ev) ->
  exists IP R, ip_exploded in_IP = Some IP /\ json_key (Prefix R) = None /\
    IPAddressesCache s' = <[IP := R]> (IPAddressesCache s) /\
    IPPrefixesCache s' = IPPrefixesCache s.
Proof.
  rewrite resolve_run. intros Hrun.
  destruct (ip_exploded in_IP) as [IP|]; [|discriminate].
  destruct (is_globally_routable IP); [|discriminate].
  assert (Hu : forall t, IPAddressesCache t = IPAddressesCache s ->
                 IPPrefixesCache t = IPPrefixesCache s ->
                 uncached e IP t = (inl UnhashableKey, s', ev) ->
                 exists IP' R, Some IP = Some IP' /\ json_key (Prefix R) = None /\
                   IPAddressesCache s' = <[IP' := R]> (IPAddressesCache s) /\
                   IPPrefixesCache s' = IPPrefixesCache s).
  { intros t Ha Hp H. destruct (lookup_uncached_unhashable e IP t s' ev H)
      as (R & HR & HA & HP). exists IP, R. rewrite <- Ha, <- Hp. auto. }
  destruct (IPAddressesCache s !! IP) as [a|];
    [destruct (fresh s e (TS a)); [discriminate|]|];
    (eapply Hu; [| |exact Hrun]; by destruct s).
Qed.

(** Every exception other than [UnhashableKey] leaves both caches as they
    were: [InvalidAddress], [InvalidBlock] from a malformed prefix key,
    [LookupError], [JSONDecodeError] and the failed field accesses outside
    the [try] block. *)
Theorem resolve_error_keeps_caches e in_IP s x s' ev :
  resolve e in_IP s = (inl x, s', ev) ->
  x <> UnhashableKey ->
  IPAddressesCache s' = IPAddressesCache s /\ IPPrefixesCache s' = IPPrefixesCache s.
Proof.
  rewrite resolve_run. intros Hrun Hx.
  destruct (ip_exploded in_IP) as [IP|]; [|by simplify_eq].
  destruct (is_globally_routable IP); [|by simplify_eq].
  assert (Hu : forall t, IPAddressesCache t = IPAddressesCache s ->
                 IPPrefixesCache t = IPPrefixesCache s ->
                 uncached e IP t = (inl x, s', ev) ->
                 IPAddressesCache s' = IPAddressesCache s /\
                 IPPrefixesCache s' = IPPrefixesCache s).
  { intros t Ha Hp H. rewrite <- Ha, <- Hp. exact (lookup_uncached_error_frame e IP t x s' ev H Hx). }
  destruct (IPAddressesCache s !! IP) as [a|];
    [destruct (fresh s e (TS a)); [discriminate|]|];
    (eapply Hu; [| |exact Hrun]; by destruct s).
Qed.

(** A second call for the same address, made while the record the first
    call returned is still fresh, returns that same record with no
    outbound call and no change to either cache. *)
Theorem resolve_repeat_hit e1 e2 in_IP IP s R1 s1 ev1 :
  ip_exploded in_IP = Some IP ->
  is_globally_routable IP = true ->
  resolve e1 in_IP s = (inr R1, s1, ev1) ->
  fresh s1 e2 (TS R1) = true ->
  match resolve e2 in_IP s1 with
  | (res, s2, ev2) =>
      res = inr R1 /\ ev2 = [] /\
      IPAddressesCache s2 = IPAddressesCache s1 /\ IPPrefixesCache s2 = IPPrefixesCache s1
  end.
Proof.
  intros Hip Hr Hrun Hf.
  pose proof (resolve_ok_cached e1 in_IP IP s R1 s1 ev1 Hip Hr Hrun) as Hc.
  rewrite resolve_run, Hip, Hr, Hc, Hf. simpl. auto.
Qed.

(** The announced path: for a routable address with no fresh address-cache
    entry and no fresh prefix entry containing it, a response with status
    "ok", a first ASN entry [x] and a hashable [data.resource] [p] gives
    [{TS: now, ASN: str(x.asn), Holder: x.holder, Prefix: p}], with the
    reverse-DNS HostName when the ASN is a digit string (or literally
    "not announced") and "" otherwise; the record is stored under the
    address. *)
Theorem resolve_announced e in_IP IP s body obj data asns x asn A h p :
  ip_exploded in_IP = Some IP ->
  is_globally_routable IP = true ->
  (forall a, IPAddressesCache s !! IP = Some a -> fresh s e (TS a) = false) ->
  fst (fst (scan e IP (IPPrefixesCache s) s)) = inr None ->
  urlopen e (ripe_url IP) = Some body ->
  json_loads body = Some obj ->
  py_getitem obj "status" = Some (JStr "ok") ->
  py_getitem obj "data" = Some data ->
  py_getitem data "asns" = Some asns ->
  py_index0 asns = Some x ->
  py_getitem x "asn" = Some asn ->
  py_str container_str asn = Some A ->
  py_getitem x "holder" = Some h ->
  py_getitem data "resource" = Some p ->
  is_Some (json_key p) ->
  let dns := isdigit A || String.eqb A "not announced" in
  let R := {| TS := now e; ASN := A; Holder := h; Prefix := p;
              HostName := if dns then hostname_of (getfqdn e IP) IP else "" |} in
  match resolve e in_IP s with
  | (res, s', ev) =>
      res = inr R /\
      ev = EvFetch (ripe_url IP) :: (if dns then [EvDns IP] else []) /\
      IPAddressesCache s' = <[IP := R]> (IPAddressesCache s)
  end.
Proof.
  intros Hip Hr Hmiss Hscan Hu Hj Hst Hd Has Hx Hasn HA Hh Hp [k Hk] dns R.
  rewrite (resolve_miss e in_IP IP s Hip Hr Hmiss).
  set (s1 := set_addr_objects s ({[IP]} ∪ IPAddressObjects s)).
  destruct (lookup_uncached_from_scan e IP s s1 None) as (t1 & Ha & _ & _ & ->);
    [by subst s1; destruct s|by subst s1; destruct s|by subst s1; destruct s|done|].
  simpl. rewrite remote_lookup_run, Hu, Hj.
  assert (Hne : py_ne_nil asns = true)
    by (destruct asns as [| | | |[|]|]; simpl in *; congruence).
  assert (Hf : first_asn_entry obj = Some x)
    by (unfold first_asn_entry; rewrite Hd; simpl; rewrite Has; exact Hx).
  assert (Ht : try_asns container_str obj (set_TS Result0 (now e)) =
               {| TS := now e; ASN := A; Holder := h; Prefix := p; HostName := "" |}).
  { unfold try_asns. rewrite Hf. simpl. rewrite Hasn. simpl. rewrite HA.
    rewrite Hh. simpl. rewrite Hd. simpl. rewrite Hp. reflexivity. }
  unfold apply_response at 1, of_option, mbind, mret. rewrite Hst. simpl.
  rewrite Hd, Has, Hne, Ht. simpl.
  rewrite enrich_hostname_run. simpl. fold dns.
  destruct dns; simpl; rewrite store_result_run; simpl;
    (destruct (py_ne_empty p); [rewrite Hk|]); simpl; rewrite Ha; subst s1 R; simpl; auto.
Qed.

(** The not-announced path: under the same conditions, a response with
    status "ok", [data.asns == []] and a hashable [data.resource] gives
    [{TS: now, ASN: "not announced", Holder: "", Prefix: data.resource}]
    with the reverse-DNS HostName, after one fetch and one lookup. *)
Theorem resolve_not_announced e in_IP IP s body obj data p :
  ip_exploded in_IP = Some IP ->
  is_globally_routable IP = true ->
  (forall a, IPAddressesCache s !! IP = Some a -> fresh s e (TS a) = false) ->
  fst (fst (scan e IP (IPPrefixesCache s) s)) = inr None ->
  urlopen e (ripe_url IP) = Some body ->
  json_loads body = Some obj ->
  py_getitem obj "status" = Some (JStr "ok") ->
  py_getitem obj "data" = Some data ->
  py_getitem data "asns" = Some (JArr []) ->
  py_getitem data "resource" = Some p ->
  is_Some (json_key p) ->
  let R := {| TS := now e; ASN := "not announced"; Holder := JStr ""; Prefix := p;
              HostName := hostname_of (getfqdn e IP) IP |} in
  match resolve e in_IP s with
  | (res, s', ev) =>
      res = inr R /\ ev = [EvFetch (ripe_url IP); EvDns IP] /\
      IPAddressesCache s' = <[IP := R]> (IPAddressesCache s)
  end.
Proof.
  intros Hip Hr Hmiss Hscan Hu Hj Hst Hd Has Hp [k Hk] R.
  rewrite (resolve_miss e in_IP IP s Hip Hr Hmiss).
  set (s1 := set_addr_objects s ({[IP]} ∪ IPAddressObjects s)).
  destruct (lookup_uncached_from_scan e IP s s1 None) as (t1 & Ha & _ & _ & ->);
    [by subst s1; destruct s|by subst s1; destruct s|by subst s1; destruct s|done|].
  simpl. rewrite remote_lookup_run, Hu, Hj.
  unfold apply_response at 1, of_option, mbind, mret. rewrite Hst. simpl.
  rewrite Hd, Has. simpl. rewrite Hp. simpl.
  rewrite enrich_hostname_run. simpl. rewrite store_result_run. simpl.
  destruct (py_ne_empty p); [rewrite Hk|]; simpl; rewrite Ha; subst s1 R; simpl; auto.
Qed.

End Proofs.

(* ------------------------------------------------------------------ *)
(** ** Properties of construction and saving *)

Section FileProofs.

Variable json_loads : string -> option json.
Variable json_dumps : json -> string.

Local Abbreviation init := (__init__ json_loads).
Local Abbreviation save := (SaveCache json_dumps).
Local Abbreviation del := (__del__ json_dumps).
Local Abbreviation load := (load_json json_loads).

Lemma file_not_zero_some fs path c :
  files fs !! path = Some c -> c <> "" -> _file_not_zero fs path = true.
Proof.
  unfold _file_not_zero. intros -> Hc. destruct c; [done|]. reflexivity.
Qed.

Lemma save_run fs o :
  can_write fs (IP_ADDRESSES_CACHE_FILE o) = true ->
  can_write fs (IP_PREFIXES_CACHE_FILE o) = true ->
  save fs o =
    (inr tt, set_files fs
       (<[IP_PREFIXES_CACHE_FILE o := json_dumps (c_IPPrefixesCache o)]>
         (<[IP_ADDRESSES_CACHE_FILE o := json_dumps (c_IPAddressesCache o)]> (files fs)))).
Proof.
  intros HA HP. unfold SaveCache, write_file. rewrite HA. simpl. rewrite HP. done.
Qed.

(** What a successful construction does: each cache is the parsed content
    of its file when that file exists and is non-empty, and [{}]
    otherwise; the settings are stored as given; and both cache files are
    left empty on disk (truncated or created), all other files untouched. *)
Theorem init_success fs A P m d o fs' :
  init fs A P m d = (inr o, fs') ->
  ((_file_not_zero fs A = false /\ c_IPAddressesCache o = JObj []) \/
   (exists c, files fs !! A = Some c /\ c <> "" /\ json_loads c = Some (c_IPAddressesCache o))) /\
  ((_file_not_zero fs P = false /\ c_IPPrefixesCache o = JObj []) \/
   (exists c, files fs !! P = Some c /\ c <> "" /\ json_loads c = Some (c_IPPrefixesCache o))) /\
  IP_ADDRESSES_CACHE_FILE o = A /\ IP_PREFIXES_CACHE_FILE o = P /\
  c_MAX_CACHE o = m /\ Debug o = d /\
  files fs' = <[P := ""]> (<[A := ""]> (files fs)).
Proof.
  unfold __init__, load_json, write_file, _file_not_zero.
  intros H. repeat (case_match; simplify_eq/=);
    repeat split; auto;
    repeat match goal with
    | H : Nat.ltb 0 (String.length ?c) = true |- _ =>
        assert (c <> "") by (destruct c; simpl in H; discriminate); clear H
    end;
    try (by left); try (by right; eexists; eauto).
Qed.

(** If the address-cache file exists, is non-empty and cannot be read or
    parsed, construction raises before touching any file, and the object it
    leaves behind holds two empty caches: finalising it ([__del__], that is
    [SaveCache]) overwrites both cache files with an empty cache, the
    prefix-cache file included, although it was never read. *)
Theorem init_corrupt_address_file fs A P m d x :
  _file_not_zero fs A = true ->
  load fs A = inl x ->
  exists o, init fs A P m d = (inl (x, o), fs) /\
    c_IPAddressesCache o = JObj [] /\ c_IPPrefixesCache o = JObj [] /\
    (can_write fs A = true -> can_write fs P = true ->
     files (snd (del fs o)) =
       <[P := json_dumps (JObj [])]> (<[A := json_dumps (JObj [])]> (files fs))).
Proof.
  intros Hz Hl. unfold __init__. rewrite Hz, Hl.
  eexists. split; [reflexivity|]. simpl. split; [done|]. split; [done|].
  intros HA HP. unfold __del__. rewrite save_run; done.
Qed.

(** If the address-cache file loads but the prefix-cache file exists, is
    non-empty and cannot be read or parsed, construction raises before
    touching any file; the object left behind holds the loaded address
    cache and an empty prefix cache, so finalising it replaces the
    prefix-cache file with an empty cache. *)
Theorem init_corrupt_prefix_file fs A P m d a x :
  _file_not_zero fs A = true ->
  load fs A = inr a ->
  _file_not_zero fs P = true ->
  load fs P = inl x ->
  exists o, init fs A P m d = (inl (x, o), fs) /\
    c_IPAddressesCache o = a /\ c_IPPrefixesCache o = JObj [] /\
    (can_write fs A = true -> can_write fs P = true ->
     files (snd (del fs o)) =
       <[P := json_dumps (JObj [])]> (<[A := json_dumps a]> (files fs))).
Proof.
  intros HzA HlA HzP HlP. unfold __init__. rewrite HzA, HlA, HzP, HlP.
  eexists. split; [reflexivity|]. simpl. split; [done|]. split; [done|].
  intros HA HP. unfold __del__. rewrite save_run; done.
Qed.

(** When construction raises, it has changed no file, except in one case:
    the prefix-cache file is not writable, and then the address-cache file
    has already been emptied. *)
Theorem init_failure_files fs A P m d x o fs' :
  init fs A P m d = (inl (x, o), fs') ->
  files fs' = files fs \/
  (x = IOError /\ can_write fs A = true /\ can_write fs P = false /\
   files fs' = <[A := ""]> (files fs)).
Proof.
  unfold __init__, write_file.
  intros H. repeat (case_match; simplify_eq/=); auto.
Qed.

(** Saving then constructing again from the same two (distinct) files
    gives back the same object, provided the files are readable and
    writable and [json.loads] parses back what [json.dump] wrote for the
    two caches. *)
Theorem save_then_init fs o :
  IP_ADDRESSES_CACHE_FILE o <> IP_PREFIXES_CACHE_FILE o ->
  can_write fs (IP_ADDRESSES_CACHE_FILE o) = true ->
  can_write fs (IP_PREFIXES_CACHE_FILE o) = true ->
  can_read fs (IP_ADDRESSES_CACHE_FILE o) = true ->
  can_read fs (IP_PREFIXES_CACHE_FILE o) = true ->
  json_dumps (c_IPAddressesCache o) <> "" ->
  json_dumps (c_IPPrefixesCache o) <> "" ->
  json_loads (json_dumps (c_IPAddressesCache o)) = Some (c_IPAddressesCache o) ->
  json_loads (json_dumps (c_IPPrefixesCache o)) = Some (c_IPPrefixesCache o) ->
  exists fs1 fs2,
    save fs o = (inr tt, fs1) /\
    init fs1 (IP_ADDRESSES_CACHE_FILE o) (IP_PREFIXES_CACHE_FILE o)
      (c_MAX_CACHE o) (Debug o) = (inr o, fs2).
Proof.
  intros Hne HwA HwP HrA HrP HdA HdP HlA HlP.
  rewrite save_run by done. eexists _, _. split; [reflexivity|].
  set (A := IP_ADDRESSES_CACHE_FILE o) in *.
  set (P := IP_PREFIXES_CACHE_FILE o) in *.
  set (fs1 := set_files fs _).
  assert (H1 : files fs1 !! A = Some (json_dumps (c_IPAddressesCache o)))
    by (subst fs1; simpl; rewrite lookup_insert_ne by done; apply lookup_insert_eq).
  assert (H2 : files fs1 !! P = Some (json_dumps (c_IPPrefixesCache o)))
    by (subst fs1; simpl; apply lookup_insert_eq).
  unfold __init__.
  rewrite (file_not_zero_some fs1 A _ H1 HdA), (file_not_zero_some fs1 P _ H2 HdP).
  unfold load_json. subst fs1. simpl. rewrite HrA, HrP.
  simpl in H1, H2. rewrite H1, H2, HlA, HlP.
  unfold write_file. simpl. rewrite HwA. simpl. rewrite HwP. simpl.
  by destruct o.
Qed.

(** When both file names are the same, saving leaves only the prefix
    cache in the file, so constructing again from it loads the prefix
    cache into both caches: the address cache is lost. *)
Theorem save_same_file fs o :
  IP_ADDRESSES_CACHE_FILE o = IP_PREFIXES_CACHE_FILE o ->
  can_write fs (IP_PREFIXES_CACHE_FILE o) = true ->
  can_read fs (IP_PREFIXES_CACHE_FILE o) = true ->
  json_dumps (c_IPPrefixesCache o) <> "" ->
  json_loads (json_dumps (c_IPPrefixesCache o)) = Some (c_IPPrefixesCache o) ->
  exists fs1 o' fs2,
    save fs o = (inr tt, fs1) /\
    files fs1 !! IP_PREFIXES_CACHE_FILE o = Some (json_dumps (c_IPPrefixesCache o)) /\
    init fs1 (IP_ADDRESSES_CACHE_FILE o) (IP_PREFIXES_CACHE_FILE o)
      (c_MAX_CACHE o) (Debug o) = (inr o', fs2) /\
    c_IPAddressesCache o' = c_IPPrefixesCache o /\
    c_IPPrefixesCache o' = c_IPPrefixesCache o.
Proof.
  intros Heq Hw Hr Hd Hl.
  rewrite save_run by (rewrite ?Heq; done).
  set (P := IP_PREFIXES_CACHE_FILE o) in *. rewrite Heq.
  set (fs1 := set_files fs _).
  assert (H1 : files fs1 !! P = Some (json_dumps (c_IPPrefixesCache o)))
    by (subst fs1; simpl; apply lookup_insert_eq).
  exists fs1. do 2 eexists. split; [reflexivity|]. split; [exact H1|].
  unfold __init__.
  rewrite (file_not_zero_some fs1 P _ H1 Hd).
  unfold load_json. rewrite H1. subst fs1. simpl. rewrite Hr, Hl.
  unfold write_file. simpl. rewrite Hw. simpl. rewrite Hw. simpl.
  split; [reflexivity|]. simpl. done.
Qed.

End FileProofs.

(* ------------------------------------------------------------------ *)
(** ** The claims on concrete inputs *)

Lemma resolve_not_routable_witness :
  ToyNet.exploded "10.1.2.3" = Some "10.1.2.3" /\
  ToyNet.globally_routable "10.1.2.3" = false /\
  match Fixture.resolve (Fixture.env_with Fixture.T0 None) "10.1.2.3"
          Fixture.stale_state with
  | (r, s', ev) =>
      r = inr {| TS := 0; ASN := "unknown"; Holder := JStr ""; Prefix := JStr "";
                 HostName := "" |} /\
      IPAddressesCache s' = IPAddressesCache Fixture.stale_state /\
      IPPrefixesCache s' = IPPrefixesCache Fixture.stale_state /\ ev = []
  end.
Proof.
  split; [vm_compute; reflexivity|]. split; [vm_compute; reflexivity|].
  unfold Fixture.resolve.
  apply (resolve_not_routable ToyNet.exploded ToyNet.globally_routable ToyNet.net_ok
           ToyNet.net_contains Fixture.loads ToyNet.container_str _ _ "10.1.2.3");
    vm_compute; reflexivity.
Defined.

Lemma resolve_fresh_address_hit_witness :
  ToyNet.exploded "193.0.6.139" = Some "193.0.6.139" /\
  ToyNet.globally_routable "193.0.6.139" = true /\
  IPAddressesCache Fixture.fresh_state !! "193.0.6.139" = Some Fixture.ripe_record /\
  fresh Fixture.fresh_state (Fixture.env_with (Fixture.T0 + 3600) None)
    (TS Fixture.ripe_record) = true /\
  match Fixture.resolve (Fixture.env_with (Fixture.T0 + 3600) None) "193.0.6.139"
          Fixture.fresh_state with
  | (res, s', ev) =>
      res = inr Fixture.ripe_record /\
      IPAddressesCache s' = IPAddressesCache Fixture.fresh_state /\
      IPPrefixesCache s' = IPPrefixesCache Fixture.fresh_state /\ ev = []
  end.
Proof.
  do 4 (split; [vm_compute; reflexivity|]).
  unfold Fixture.resolve.
  apply (resolve_fresh_address_hit ToyNet.exploded ToyNet.globally_routable
           ToyNet.net_ok ToyNet.net_contains Fixture.loads ToyNet.container_str
           _ _ "193.0.6.139"); vm_compute; reflexivity.
Defined.

Lemma resolve_error_no_mutation_witness :
  Fixture.resolve (Fixture.env_with Fixture.T0 None) "8.8.8.8" Fixture.empty_state =
    (inl LookupError, Fixture.state_of Fixture.run_fetch_fails,
     Fixture.events_of Fixture.run_fetch_fails) /\
  (LookupError = InvalidAddress \/ LookupError = LookupError) /\
  IPAddressesCache (Fixture.state_of Fixture.run_fetch_fails) =
    IPAddressesCache Fixture.empty_state /\
  IPPrefixesCache (Fixture.state_of Fixture.run_fetch_fails) =
    IPPrefixesCache Fixture.empty_state.
Proof.
  split; [vm_compute; reflexivity|]. split; [right; reflexivity|].
  apply (resolve_error_no_mutation ToyNet.exploded ToyNet.globally_routable
           ToyNet.net_ok ToyNet.net_contains Fixture.loads ToyNet.container_str
           (Fixture.env_with Fixture.T0 None) "8.8.8.8" Fixture.empty_state LookupError
           (Fixture.state_of Fixture.run_fetch_fails)
           (Fixture.events_of Fixture.run_fetch_fails));
    [vm_compute; reflexivity|right; reflexivity].
Defined.

Lemma resolve_prefix_hit_witness :
  let s := Fixture.prefix_state "193.0.0.0/21"
             (Fixture.ripe_prefix Fixture.T0 (Some (JStr "RIPE-NCC-AS"))) in
  let e := Fixture.env_with Fixture.T0 None in
  ToyNet.exploded "193.0.6.139" = Some "193.0.6.139" /\
  ToyNet.globally_routable "193.0.6.139" = true /\
  IPAddressesCache s !! "193.0.6.139" = None /\
  fst (fst (prefix_scan ToyNet.net_ok ToyNet.net_contains e "193.0.6.139"
              (IPPrefixesCache s) s)) =
    inr (Some (KStr "193.0.0.0/21",
               Fixture.ripe_prefix Fixture.T0 (Some (JStr "RIPE-NCC-AS")))) /\
  let R := {| TS := Fixture.T0; ASN := "3333"; Holder := JStr "RIPE-NCC-AS";
              Prefix := JStr "193.0.0.0/21"; HostName := "" |} in
  match Fixture.resolve e "193.0.6.139" s with
  | (res, s', ev) =>
      res = inr R /\ ev = [] /\
      IPAddressesCache s' = <[ "193.0.6.139" := R ]> (IPAddressesCache s)
  end.
Proof.
  intros s e.
  do 4 (split; [vm_compute; reflexivity|]).
  unfold Fixture.resolve.
  apply (resolve_prefix_hit ToyNet.exploded ToyNet.globally_routable
           ToyNet.net_ok ToyNet.net_contains Fixture.loads ToyNet.container_str
           e "193.0.6.139" "193.0.6.139" s (KStr "193.0.0.0/21")
           (Fixture.ripe_prefix Fixture.T0 (Some (JStr "RIPE-NCC-AS"))));
    vm_compute; first [reflexivity | discriminate | intros ? ?; discriminate].
Defined.

Lemma resolve_prefix_hit_without_holder_witness :
  let s := Fixture.prefix_state "193.0.0.0/21" (Fixture.ripe_prefix Fixture.T0 None) in
  let e := Fixture.env_with Fixture.T0 None in
  ToyNet.exploded "193.0.6.139" = Some "193.0.6.139" /\
  ToyNet.globally_routable "193.0.6.139" = true /\
  IPAddressesCache s !! "193.0.6.139" = None /\
  fst (fst (prefix_scan ToyNet.net_ok ToyNet.net_contains e "193.0.6.139"
              (IPPrefixesCache s) s)) =
    inr (Some (KStr "193.0.0.0/21", Fixture.ripe_prefix Fixture.T0 None)) /\
  exists R, fst (fst (Fixture.resolve e "193.0.6.139" s)) = inr R /\ Holder R = JStr "".
Proof.
  intros s e.
  do 4 (split; [vm_compute; reflexivity|]).
  unfold Fixture.resolve.
  apply (resolve_prefix_hit_without_holder ToyNet.exploded ToyNet.globally_routable
           ToyNet.net_ok ToyNet.net_contains Fixture.loads ToyNet.container_str
           e "193.0.6.139" "193.0.6.139" s (KStr "193.0.0.0/21")
           (Fixture.ripe_prefix Fixture.T0 None));
    vm_compute; first [reflexivity | discriminate | intros ? ?; discriminate].
Defined.

Lemma resolve_status_not_ok_witness :
  let e := Fixture.env_with Fixture.T0 (Some "error") in
  ToyNet.exploded "8.8.8.8" = Some "8.8.8.8" /\
  ToyNet.globally_routable "8.8.8.8" = true /\
  urlopen e (ripe_url "8.8.8.8") = Some "error" /\
  Fixture.loads "error" = Some Fixture.resp_error /\
  py_getitem Fixture.resp_error "status" = Some (JStr "error") /\
  let R0 := {| TS := 0; ASN := ""; Holder := JStr ""; Prefix := JStr "";
               HostName := "" |} in
  match Fixture.resolve e "8.8.8.8" Fixture.empty_state with
  | (res, s', ev) =>
      res = inr R0 /\
      IPAddressesCache s' = <[ "8.8.8.8" := R0 ]> (IPAddressesCache Fixture.empty_state) /\
      IPPrefixesCache s' = IPPrefixesCache Fixture.empty_state /\
      ev = [EvFetch (ripe_url "8.8.8.8")]
  end.
Proof.
  intros e.
  do 5 (split; [vm_compute; reflexivity|]).
  unfold Fixture.resolve.
  apply (resolve_status_not_ok ToyNet.exploded ToyNet.globally_routable
           ToyNet.net_ok ToyNet.net_contains Fixture.loads ToyNet.container_str
           e "8.8.8.8" "8.8.8.8" Fixture.empty_state "error" Fixture.resp_error
           (JStr "error"));
    vm_compute; first [reflexivity | discriminate | intros ? ?; discriminate].
Defined.

Lemma resolve_malformed_asn_entry_witness :
  let e := Fixture.env_with Fixture.T0 (Some "no-resource") in
  let e' := Fixture.env_with Fixture.T0 (Some "garbage") in
  ToyNet.exploded "8.8.8.8" = Some "8.8.8.8" /\
  ToyNet.globally_routable "8.8.8.8" = true /\
  urlopen e (ripe_url "8.8.8.8") = Some "no-resource" /\
  Fixture.loads "no-resource" = Some Fixture.resp_no_resource /\
  obind (py_getitem Fixture.resp_no_resource "data")
    (fun d => py_getitem d "resource") = None /\
  (exists R,
    fst (fst (Fixture.resolve e "8.8.8.8" Fixture.empty_state)) = inr R /\
    ASN R = "unknown" /\ TS R = Fixture.T0 /\ HostName R = "" /\
    Prefix R = JStr "" /\ Holder R = JStr "RIPE-NCC-AS") /\
  Fixture.loads "garbage" = None /\
  fst (fst (Fixture.resolve e' "8.8.8.8" Fixture.empty_state)) = inl JSONDecodeError /\
  Examples.loads "{}" = Some (JObj []) /\
  fst (fst (Examples.resolve (Fixture.env_with Fixture.T0 (Some "{}")) "8.8.8.8"
              Fixture.empty_state)) = inl FieldAccessError.
Proof.
  intros e e'.
  do 5 (split; [vm_compute; reflexivity|]).
  unfold Fixture.resolve.
  split; [|split; [vm_compute; reflexivity|split]].
  - refine (proj1 (resolve_malformed_asn_entry ToyNet.exploded ToyNet.globally_routable
             ToyNet.net_ok ToyNet.net_contains Fixture.loads ToyNet.container_str
             e "8.8.8.8" "8.8.8.8" Fixture.empty_state None _ _ _ _ _)
             "no-resource" Fixture.resp_no_resource
             (JObj [("asns", JArr [JObj [("asn", JInt 3333);
                                         ("holder", JStr "RIPE-NCC-AS")]])])
             (JArr [JObj [("asn", JInt 3333); ("holder", JStr "RIPE-NCC-AS")]])
             _ _ _ _ _ _ _);
      vm_compute; first [reflexivity | discriminate | intros ? ?; discriminate
                        | right; right; reflexivity].
  - refine (proj1 (proj2 (resolve_malformed_asn_entry ToyNet.exploded
             ToyNet.globally_routable ToyNet.net_ok ToyNet.net_contains Fixture.loads
             ToyNet.container_str e' "8.8.8.8" "8.8.8.8" Fixture.empty_state None
             _ _ _ _ _)) "garbage" _ _);
      vm_compute; first [reflexivity | discriminate | intros ? ?; discriminate].
  - split; [vm_compute; reflexivity|].
    unfold Examples.resolve.
    refine (proj2 (proj2 (resolve_malformed_asn_entry ToyNet.exploded
             ToyNet.globally_routable ToyNet.net_ok ToyNet.net_contains Examples.loads
             ToyNet.container_str (Fixture.env_with Fixture.T0 (Some "{}")) "8.8.8.8"
             "8.8.8.8" Fixture.empty_state None _ _ _ _ _)) "{}" (JObj []) _ _ _);
      vm_compute; first [reflexivity | discriminate | intros ? ?; discriminate
                        | left; reflexivity].
Defined.

Lemma resolve_reverse_dns_witness :
  let e := Fixture.env_with Fixture.T0 (Some "announced") in
  let ev := Fixture.events_of Fixture.run_announced in
  ToyNet.exploded "193.0.6.139" = Some "193.0.6.139" /\
  Fixture.resolve e "193.0.6.139" Fixture.empty_state =
    (inr Fixture.ripe_record, Fixture.state_of Fixture.run_announced, ev) /\
  (In (EvDns "193.0.6.139") ev <->
   In (EvFetch (ripe_url "193.0.6.139")) ev /\
   (isdigit (ASN Fixture.ripe_record) ||
    String.eqb (ASN Fixture.ripe_record) "not announced") = true) /\
  (forall h, In (EvDns h) ev -> h = "193.0.6.139") /\
  (In (EvDns "193.0.6.139") ev ->
   HostName Fixture.ripe_record = hostname_of (getfqdn e "193.0.6.139") "193.0.6.139").
Proof.
  intros e ev.
  do 2 (split; [vm_compute; reflexivity|]).
  unfold Fixture.resolve.
  apply (resolve_reverse_dns ToyNet.exploded ToyNet.globally_routable
           ToyNet.net_ok ToyNet.net_contains Fixture.loads ToyNet.container_str
           e "193.0.6.139" "193.0.6.139" Fixture.empty_state Fixture.ripe_record
           (Fixture.state_of Fixture.run_announced) ev);
    vm_compute; reflexivity.
Defined.

Lemma resolve_twice_one_fetch_witness :
  let e1 := Fixture.env_with Fixture.T0 (Some "announced") in
  let e2 := Fixture.env_with (Fixture.T0 + 3600) (Some "announced") in
  Fixture.resolve e1 "193.0.6.139" Fixture.empty_state =
    (inr Fixture.ripe_record, Fixture.state_of Fixture.run_announced,
     Fixture.events_of Fixture.run_announced) /\
  (forall u, In (EvFetch u) (Fixture.events_of Fixture.run_announced) ->
     response_status_ok Fixture.loads (urlopen e1 u) = true) /\
  Z.abs (now e2 - now e1) <= MAX_CACHE Fixture.empty_state /\
  (count_fetch (Fixture.events_of Fixture.run_announced) +
   count_fetch (snd (Fixture.resolve e2 "193.0.6.139"
                       (Fixture.state_of Fixture.run_announced))) <= 1)%nat.
Proof.
  intros e1 e2.
  split; [vm_compute; reflexivity|].
  split; [intros u _; vm_compute; reflexivity|].
  split; [vm_compute; discriminate|].
  unfold Fixture.resolve.
  apply (resolve_twice_one_fetch ToyNet.exploded ToyNet.globally_routable
           ToyNet.net_ok ToyNet.net_contains Fixture.loads ToyNet.container_str
           e1 e2 "193.0.6.139" Fixture.empty_state Fixture.ripe_record);
    [vm_compute; reflexivity|intros u _; vm_compute; reflexivity|vm_compute; discriminate].
Defined.

Lemma resolve_freshness_filter_witness :
  let e := Fixture.env_with Fixture.T0 (Some "announced") in
  let ip := "193.0.6.139" in
  ToyNet.exploded ip = Some ip /\
  (fst (fst (Fixture.resolve e ip Fixture.fresh_state)) = inr Fixture.ripe_record /\
   snd (Fixture.resolve e ip Fixture.fresh_state) = []) /\
  (let s' := set_addr_cache Fixture.stale_state
               (delete ip (IPAddressesCache Fixture.stale_state)) in
   fst (fst (Fixture.resolve e ip Fixture.stale_state)) =
     fst (fst (Fixture.resolve e ip s')) /\
   snd (Fixture.resolve e ip Fixture.stale_state) = snd (Fixture.resolve e ip s') /\
   is_Some (IPAddressesCache (snd (fst (Fixture.resolve e ip Fixture.stale_state))) !! ip)) /\
  (let s' := set_prefix_cache Fixture.stale_state ([] ++ [])%list in
   fst (fst (Fixture.resolve e ip Fixture.stale_state)) =
     fst (fst (Fixture.resolve e ip s')) /\
   snd (Fixture.resolve e ip Fixture.stale_state) = snd (Fixture.resolve e ip s') /\
   In (KStr "193.0.0.0/21")
     (map fst (IPPrefixesCache (snd (fst (Fixture.resolve e ip Fixture.stale_state)))))).
Proof.
  intros e ip.
  split; [vm_compute; reflexivity|].
  unfold Fixture.resolve.
  split; [|split].
  - apply (proj1 (resolve_freshness_filter ToyNet.exploded ToyNet.globally_routable
                    ToyNet.net_ok ToyNet.net_contains Fixture.loads ToyNet.container_str
                    e ip ip Fixture.fresh_state ltac:(vm_compute; reflexivity))
                 Fixture.ripe_record); vm_compute; reflexivity.
  - apply (proj1 (proj2 (resolve_freshness_filter ToyNet.exploded ToyNet.globally_routable
                    ToyNet.net_ok ToyNet.net_contains Fixture.loads ToyNet.container_str
                    e ip ip Fixture.stale_state ltac:(vm_compute; reflexivity)))
                 (set_TS Fixture.ripe_record 0)); vm_compute; reflexivity.
  - apply (proj2 (proj2 (resolve_freshness_filter ToyNet.exploded ToyNet.globally_routable
                    ToyNet.net_ok ToyNet.net_contains Fixture.loads ToyNet.container_str
                    e ip ip Fixture.stale_state ltac:(vm_compute; reflexivity)))
                 [] (KStr "193.0.0.0/21")
                 (Fixture.ripe_prefix 0 (Some (JStr "RIPE-NCC-AS"))) []);
      vm_compute; reflexivity.
Defined.

(* ------------------------------------------------------------------ *)
(** ** Concrete runs against the claims as first stated *)

(** C1 as first stated: an answer with status "error" for the routable
    address 8.8.8.8 is nevertheless stored in the address cache, as a
    record with TS 0. *)
Lemma status_error_record_stored :
  ToyNet.globally_routable "8.8.8.8" = true /\
  IPAddressesCache (Fixture.state_of
    (Fixture.resolve (Fixture.env_with Fixture.T0 (Some "error")) "8.8.8.8"
       Fixture.empty_state)) !! "8.8.8.8" =
    Some {| TS := 0; ASN := ""; Holder := JStr ""; Prefix := JStr "";
            HostName := "" |}.
Proof. split; vm_compute; reflexivity. Qed.

(** C2 as first stated: 193.0.6.139 lies in two fresh prefix entries,
    193.0.0.0/16 with ASN 1 and 193.0.0.0/21 with ASN 3333; the result
    carries the first entry only, so it does not carry the second entry's
    ASN or prefix key although that entry is fresh and contains the
    address. *)
Lemma prefix_hit_other_entry :
  let r := Fixture.ripe_prefix Fixture.T0 (Some (JStr "RIPE-NCC-AS")) in
  let s := {| IPAddressesCache := ∅;
              IPPrefixesCache :=
                [(KStr "193.0.0.0/16", {| p_TS := Fixture.T0; p_ASN := "1";
                                          p_Holder := None |});
                 (KStr "193.0.0.0/21", r)];
              IPAddressObjects := ∅; IPPrefixObjects := []; MAX_CACHE := 604800 |} in
  let o := Fixture.resolve (Fixture.env_with Fixture.T0 None) "193.0.6.139" s in
  ToyNet.net_contains (KStr "193.0.0.0/21") "193.0.6.139" = true /\
  fresh s (Fixture.env_with Fixture.T0 None) (p_TS r) = true /\
  Fixture.result_of o =
    inr {| TS := Fixture.T0; ASN := "1"; Holder := JStr "";
           Prefix := JStr "193.0.0.0/16"; HostName := "" |} /\
  Fixture.events_of o = [].
Proof. vm_compute. repeat split. Qed.

(** C4 as first stated: two calls for 8.8.8.8 one second apart, both
    answered with status "error", make two fetches. *)
Lemma two_fetches_within_window :
  let o1 := Fixture.resolve (Fixture.env_with Fixture.T0 (Some "error")) "8.8.8.8"
              Fixture.empty_state in
  let o2 := Fixture.resolve (Fixture.env_with (Fixture.T0 + 1) (Some "error")) "8.8.8.8"
              (Fixture.state_of o1) in
  (count_fetch (Fixture.events_of o1) + count_fetch (Fixture.events_of o2) = 2)%nat.
Proof. vm_compute. reflexivity. Qed.

(** C5 as first stated: the service answers, but with a body that is not
    JSON, and the call raises. *)
Lemma unparsable_body_raises :
  urlopen (Fixture.env_with Fixture.T0 (Some "garbage")) (ripe_url "8.8.8.8") =
    Some "garbage" /\
  Fixture.result_of
    (Fixture.resolve (Fixture.env_with Fixture.T0 (Some "garbage")) "8.8.8.8"
       Fixture.empty_state) = inl JSONDecodeError.
Proof. split; vm_compute; reflexivity. Qed.

(** C6 as first stated: a fresh prefix hit for 193.0.6.139 gives ASN
    "3333", a digit string, and no reverse-DNS lookup is made. *)
Lemma prefix_hit_no_reverse_dns :
  let o := Fixture.resolve (Fixture.env_with Fixture.T0 (Some "announced")) "193.0.6.139"
             (Fixture.prefix_state "193.0.0.0/21"
                (Fixture.ripe_prefix Fixture.T0 (Some (JStr "RIPE-NCC-AS")))) in
  Fixture.result_of o =
    inr {| TS := Fixture.T0; ASN := "3333"; Holder := JStr "RIPE-NCC-AS";
           Prefix := JStr "193.0.0.0/21"; HostName := "" |} /\
  isdigit "3333" = true /\
  Fixture.events_of o = [].
Proof. vm_compute. repeat split. Qed.


(* ------------------------------------------------------------------ *)
(** ** Further properties on concrete inputs *)

Lemma resolve_result_cached_witness :
  ToyNet.exploded "193.0.6.139" = Some "193.0.6.139" /\
  ToyNet.globally_routable "193.0.6.139" = true /\
  Fixture.run_announced =
    (inr Fixture.ripe_record, Fixture.state_of Fixture.run_announced,
     Fixture.events_of Fixture.run_announced) /\
  IPAddressesCache (Fixture.state_of Fixture.run_announced) !! "193.0.6.139" =
    Some Fixture.ripe_record.
Proof.
  do 3 (split; [vm_compute; reflexivity|]).
  apply (resolve_result_cached ToyNet.exploded ToyNet.globally_routable
           ToyNet.net_ok ToyNet.net_contains Fixture.loads ToyNet.container_str
           (Fixture.env_with Fixture.T0 (Some "announced")) "193.0.6.139" "193.0.6.139"
           Fixture.empty_state Fixture.ripe_record (Fixture.state_of Fixture.run_announced)
           (Fixture.events_of Fixture.run_announced)); vm_compute; reflexivity.
Defined.

Lemma resolve_prefix_recorded_witness :
  Fixture.run_announced =
    (inr Fixture.ripe_record, Fixture.state_of Fixture.run_announced,
     Fixture.events_of Fixture.run_announced) /\
  py_ne_empty (Prefix Fixture.ripe_record) = true /\
  exists k, json_key (Prefix Fixture.ripe_record) = Some k /\
    py_dict_get k (IPPrefixesCache (Fixture.state_of Fixture.run_announced)) =
      Some (Fixture.ripe_prefix Fixture.T0 (Some (JStr "RIPE-NCC-AS"))).
Proof.
  do 2 (split; [vm_compute; reflexivity|]).
  apply (resolve_prefix_recorded ToyNet.exploded ToyNet.globally_routable
           ToyNet.net_ok ToyNet.net_contains Fixture.loads ToyNet.container_str
           (Fixture.env_with Fixture.T0 (Some "announced")) "193.0.6.139" "193.0.6.139"
           Fixture.empty_state Fixture.ripe_record (Fixture.state_of Fixture.run_announced)
           (Fixture.events_of Fixture.run_announced));
    vm_compute; first [reflexivity | discriminate | intros ? ?; discriminate].
Defined.

Lemma resolve_unhashable_prefix_witness :
  Examples.run_list_resource =
    (inl UnhashableKey, Fixture.state_of Examples.run_list_resource,
     Fixture.events_of Examples.run_list_resource) /\
  exists IP R, ToyNet.exploded "193.0.6.139" = Some IP /\ json_key (Prefix R) = None /\
    IPAddressesCache (Fixture.state_of Examples.run_list_resource) =
      <[IP := R]> (IPAddressesCache Fixture.empty_state) /\
    IPPrefixesCache (Fixture.state_of Examples.run_list_resource) =
      IPPrefixesCache Fixture.empty_state.
Proof.
  split; [vm_compute; reflexivity|].
  apply (resolve_unhashable_prefix ToyNet.exploded ToyNet.globally_routable
           ToyNet.net_ok ToyNet.net_contains Examples.loads ToyNet.container_str
           (Fixture.env_with Fixture.T0 (Some "list-resource")) "193.0.6.139"
           Fixture.empty_state (Fixture.state_of Examples.run_list_resource)
           (Fixture.events_of Examples.run_list_resource)); vm_compute; reflexivity.
Defined.

Lemma resolve_error_keeps_caches_witness :
  Examples.run_bad_prefix =
    (inl InvalidBlock, Fixture.state_of Examples.run_bad_prefix,
     Fixture.events_of Examples.run_bad_prefix) /\
  IPAddressesCache (Fixture.state_of Examples.run_bad_prefix) =
    IPAddressesCache Examples.bad_prefix_state /\
  IPPrefixesCache (Fixture.state_of Examples.run_bad_prefix) =
    IPPrefixesCache Examples.bad_prefix_state.
Proof.
  split; [vm_compute; reflexivity|].
  apply (resolve_error_keeps_caches ToyNet.exploded ToyNet.globally_routable
           ToyNet.net_ok ToyNet.net_contains Examples.loads ToyNet.container_str
           (Fixture.env_with Fixture.T0 (Some "announced")) "193.0.6.139"
           Examples.bad_prefix_state InvalidBlock (Fixture.state_of Examples.run_bad_prefix)
           (Fixture.events_of Examples.run_bad_prefix));
    vm_compute; [reflexivity|discriminate].
Defined.

Lemma resolve_repeat_hit_witness :
  let e2 := Fixture.env_with (Fixture.T0 + 3600) (Some "announced") in
  fresh (Fixture.state_of Fixture.run_announced) e2 (TS Fixture.ripe_record) = true /\
  match Fixture.resolve e2 "193.0.6.139" (Fixture.state_of Fixture.run_announced) with
  | (res, s2, ev2) =>
      res = inr Fixture.ripe_record /\ ev2 = [] /\
      IPAddressesCache s2 = IPAddressesCache (Fixture.state_of Fixture.run_announced) /\
      IPPrefixesCache s2 = IPPrefixesCache (Fixture.state_of Fixture.run_announced)
  end.
Proof.
  intros e2. split; [vm_compute; reflexivity|].
  unfold Fixture.resolve.
  apply (resolve_repeat_hit ToyNet.exploded ToyNet.globally_routable
           ToyNet.net_ok ToyNet.net_contains Fixture.loads ToyNet.container_str
           (Fixture.env_with Fixture.T0 (Some "announced")) e2 "193.0.6.139" "193.0.6.139"
           Fixture.empty_state Fixture.ripe_record (Fixture.state_of Fixture.run_announced)
           (Fixture.events_of Fixture.run_announced)); vm_compute; reflexivity.
Defined.

Lemma resolve_announced_witness :
  let e := Fixture.env_with Fixture.T0 (Some "announced") in
  urlopen e (ripe_url "193.0.6.139") = Some "announced" /\
  match Fixture.resolve e "193.0.6.139" Fixture.empty_state with
  | (res, s', ev) =>
      res = inr Fixture.ripe_record /\
      ev = [EvFetch (ripe_url "193.0.6.139"); EvDns "193.0.6.139"] /\
      IPAddressesCache s' = <[ "193.0.6.139" := Fixture.ripe_record ]> ∅
  end.
Proof.
  intros e. split; [vm_compute; reflexivity|].
  unfold Fixture.resolve.
  apply (resolve_announced ToyNet.exploded ToyNet.globally_routable
           ToyNet.net_ok ToyNet.net_contains Fixture.loads ToyNet.container_str
           e "193.0.6.139" "193.0.6.139" Fixture.empty_state "announced"
           Fixture.resp_announced
           (JObj [("resource", JStr "193.0.0.0/21");
                  ("asns", JArr [JObj [("asn", JInt 3333); ("holder", JStr "RIPE-NCC-AS")]])])
           (JArr [JObj [("asn", JInt 3333); ("holder", JStr "RIPE-NCC-AS")]])
           (JObj [("asn", JInt 3333); ("holder", JStr "RIPE-NCC-AS")])
           (JInt 3333) "3333" (JStr "RIPE-NCC-AS") (JStr "193.0.0.0/21"));
    vm_compute; first [reflexivity | discriminate | intros ? ?; discriminate | eexists; reflexivity].
Defined.

Lemma resolve_not_announced_witness :
  let e := Fixture.env_with Fixture.T0 (Some "empty") in
  urlopen e (ripe_url "198.51.100.7") = Some "empty" /\
  match Fixture.resolve e "198.51.100.7" Fixture.empty_state with
  | (res, s', ev) =>
      res = inr {| TS := Fixture.T0; ASN := "not announced"; Holder := JStr "";
                   Prefix := JStr "198.51.100.7"; HostName := "unknown" |} /\
      ev = [EvFetch (ripe_url "198.51.100.7"); EvDns "198.51.100.7"] /\
      IPAddressesCache s' =
        <[ "198.51.100.7" := {| TS := Fixture.T0; ASN := "not announced"; Holder := JStr "";
                                Prefix := JStr "198.51.100.7"; HostName := "unknown" |} ]> ∅
  end.
Proof.
  intros e. split; [vm_compute; reflexivity|].
  unfold Fixture.resolve.
  apply (resolve_not_announced ToyNet.exploded ToyNet.globally_routable
           ToyNet.net_ok ToyNet.net_contains Fixture.loads ToyNet.container_str
           e "198.51.100.7" "198.51.100.7" Fixture.empty_state "empty"
           Fixture.resp_empty_asns
           (JObj [("resource", JStr "198.51.100.7"); ("asns", JArr [])])
           (JStr "198.51.100.7"));
    vm_compute; first [reflexivity | discriminate | intros ? ?; discriminate | eexists; reflexivity].
Defined.

Lemma init_success_witness :
  let r := Examples.init (Examples.disk "announced" "{}") in
  r = (inr (Examples.obj_of r), snd r) /\
  ((_file_not_zero (Examples.disk "announced" "{}") Examples.addr_file = false /\
    c_IPAddressesCache (Examples.obj_of r) = JObj []) \/
   (exists c, files (Examples.disk "announced" "{}") !! Examples.addr_file = Some c /\
      c <> "" /\ Examples.loads c = Some (c_IPAddressesCache (Examples.obj_of r)))) /\
  ((_file_not_zero (Examples.disk "announced" "{}") Examples.pref_file = false /\
    c_IPPrefixesCache (Examples.obj_of r) = JObj []) \/
   (exists c, files (Examples.disk "announced" "{}") !! Examples.pref_file = Some c /\
      c <> "" /\ Examples.loads c = Some (c_IPPrefixesCache (Examples.obj_of r)))) /\
  IP_ADDRESSES_CACHE_FILE (Examples.obj_of r) = Examples.addr_file /\
  IP_PREFIXES_CACHE_FILE (Examples.obj_of r) = Examples.pref_file /\
  c_MAX_CACHE (Examples.obj_of r) = 604800 /\ Debug (Examples.obj_of r) = false /\
  files (snd r) =
    <[Examples.pref_file := ""]> (<[Examples.addr_file := ""]>
      (files (Examples.disk "announced" "{}"))).
Proof.
  intros r. split; [vm_compute; reflexivity|].
  apply (init_success Examples.loads (Examples.disk "announced" "{}")
           Examples.addr_file Examples.pref_file 604800 false
           (Examples.obj_of r) (snd r)).
  vm_compute; reflexivity.
Defined.

Lemma init_corrupt_address_file_witness :
  _file_not_zero (Examples.disk "garbage" "{}") Examples.addr_file = true /\
  load_json Examples.loads (Examples.disk "garbage" "{}") Examples.addr_file = inl ValueError /\
  exists o, Examples.init (Examples.disk "garbage" "{}") =
              (inl (ValueError, o), Examples.disk "garbage" "{}") /\
    c_IPAddressesCache o = JObj [] /\ c_IPPrefixesCache o = JObj [] /\
    (can_write (Examples.disk "garbage" "{}") Examples.addr_file = true ->
     can_write (Examples.disk "garbage" "{}") Examples.pref_file = true ->
     files (snd (__del__ Examples.dumps (Examples.disk "garbage" "{}") o)) =
       <[Examples.pref_file := Examples.dumps (JObj [])]>
         (<[Examples.addr_file := Examples.dumps (JObj [])]>
           (files (Examples.disk "garbage" "{}")))).
Proof.
  do 2 (split; [vm_compute; reflexivity|]).
  apply (init_corrupt_address_file Examples.loads Examples.dumps
           (Examples.disk "garbage" "{}") Examples.addr_file Examples.pref_file
           604800 false ValueError); vm_compute; reflexivity.
Defined.

Lemma init_corrupt_prefix_file_witness :
  _file_not_zero (Examples.disk "announced" "garbage") Examples.pref_file = true /\
  exists o, Examples.init (Examples.disk "announced" "garbage") =
              (inl (ValueError, o), Examples.disk "announced" "garbage") /\
    c_IPAddressesCache o = Fixture.resp_announced /\ c_IPPrefixesCache o = JObj [] /\
    (can_write (Examples.disk "announced" "garbage") Examples.addr_file = true ->
     can_write (Examples.disk "announced" "garbage") Examples.pref_file = true ->
     files (snd (__del__ Examples.dumps (Examples.disk "announced" "garbage") o)) =
       <[Examples.pref_file := Examples.dumps (JObj [])]>
         (<[Examples.addr_file := Examples.dumps Fixture.resp_announced]>
           (files (Examples.disk "announced" "garbage")))).
Proof.
  split; [vm_compute; reflexivity|].
  apply (init_corrupt_prefix_file Examples.loads Examples.dumps
           (Examples.disk "announced" "garbage") Examples.addr_file Examples.pref_file
           604800 false Fixture.resp_announced ValueError); vm_compute; reflexivity.
Defined.

Lemma init_failure_files_witness :
  let fs := Examples.disk_ro_pref "announced" "{}" in
  let r := Examples.init fs in
  r = (inl (IOError, Examples.obj_of r), snd r) /\
  (files (snd r) = files fs \/
   (IOError = IOError /\ can_write fs Examples.addr_file = true /\
    can_write fs Examples.pref_file = false /\
    files (snd r) = <[Examples.addr_file := ""]> (files fs))).
Proof.
  intros fs r. split; [vm_compute; reflexivity|].
  apply (init_failure_files Examples.loads fs Examples.addr_file Examples.pref_file
           604800 false IOError (Examples.obj_of r) (snd r)).
  vm_compute; reflexivity.
Defined.

Lemma save_then_init_witness :
  let o := Examples.saved_object Examples.addr_file in
  let fs := Examples.disk "" "" in
  exists fs1 fs2,
    SaveCache Examples.dumps fs o = (inr tt, fs1) /\
    __init__ Examples.loads fs1 (IP_ADDRESSES_CACHE_FILE o) (IP_PREFIXES_CACHE_FILE o)
      (c_MAX_CACHE o) (Debug o) = (inr o, fs2).
Proof.
  intros o fs.
  apply (save_then_init Examples.loads Examples.dumps fs o);
    vm_compute; first [reflexivity | discriminate].
Defined.

Lemma save_same_file_witness :
  let o := Examples.saved_object Examples.pref_file in
  let fs := Examples.disk "" "" in
  exists fs1 o' fs2,
    SaveCache Examples.dumps fs o = (inr tt, fs1) /\
    files fs1 !! IP_PREFIXES_CACHE_FILE o = Some (Examples.dumps (c_IPPrefixesCache o)) /\
    __init__ Examples.loads fs1 (IP_ADDRESSES_CACHE_FILE o) (IP_PREFIXES_CACHE_FILE o)
      (c_MAX_CACHE o) (Debug o) = (inr o', fs2) /\
    c_IPAddressesCache o' = c_IPPrefixesCache o /\
    c_IPPrefixesCache o' = c_IPPrefixesCache o.
Proof.
  intros o fs.
  apply (save_same_file Examples.loads Examples.dumps fs o);
    vm_compute; first [reflexivity | discriminate].
Defined.
